(** * mobly/controllers/android_device_lib/adb.py

    A shallow embedding of the adb proxy: the [AdbError] exception, the
    [AdbProxy] class with its execution primitive [_exec_cmd], the command
    builder [_exec_adb_cmd], the dynamic dispatch [__getattr__], the two
    convenience wrappers [tcp_forward] and [getprop], and the free function
    [list_occupied_adb_ports].

    Python values are represented as follows.
    - [bytes] is a list of [byte];
    - [str] is a list of Unicode code points ([N]);
    - [int] is [Z];
    - the [args] payload of a dispatched call is [None], a [str] or a list
      of [str];
    - exceptions are the constructors of [Exn], and a call yields a
      [Result];
    - the operating system is a function from the command handed to
      [subprocess.Popen] to what [communicate()] and [returncode] give back;
    - the methods of [AdbProxy] run in a state monad over the object, and
      record the processes they spawn and the lines they log. *)

From Stdlib Require Import List ZArith NArith Bool String Ascii Lia.
From Stdlib.Strings Require Import Byte.
From Stdlib Require Import DecimalString DecimalZ DecimalPos.
Import ListNotations.

Local Open Scope list_scope.

(** ** Python values *)

Definition bytes := list byte.
Definition codepoint := N.
Definition pystr := list codepoint.

(** A [str] literal of the source, written as a Rocq string of ASCII
    characters. *)
Definition lit (s : string) : pystr :=
  map N_of_ascii (list_ascii_of_string s).
Arguments lit s%_string.

(** The double quote of ['adb -s "%s" %s %s']. *)
Definition dquote : pystr := [34%N].

(** A [bytes] literal. *)
Definition blit (s : string) : bytes := list_byte_of_string s.
Arguments blit s%_string.

(** The payload [args] of a dispatched call: [None] (the default of
    [adb_call]), a string, or a list of strings. *)
Inductive Payload : Type :=
| PNone
| PStr (s : pystr)
| PList (l : list pystr).

(** The command handed to [subprocess.Popen]: one string or a list. *)
Inductive Cmd : Type :=
| CmdStr (s : pystr)
| CmdList (argv : list pystr).

(** [class AdbError(Exception)], with the four fields its [__init__]
    stores. *)
Record AdbError : Type := mkAdbError {
  cmd : Cmd;
  stdout : bytes;
  stderr : bytes;
  ret_code : Z
}.

Inductive Exn : Type :=
| ExAdbError (e : AdbError)
| ExOSError              (* Popen could not start the process *)
| ExUnicodeDecodeError   (* bytes.decode('utf-8') *)
| ExValueError           (* int(...), or Popen on a command with U+0000 *)
| ExTypeError            (* [name] + args with args not a list *)
| ExUnicodeEncodeError   (* Popen on a command with a lone surrogate *)
| ExOther (name : string). (* any other exception class, by its name *)

Inductive Result (A : Type) : Type :=
| Ok (a : A)
| Raise (e : Exn).
Arguments Ok {A} a.
Arguments Raise {A} e.

(** ** The operating system *)

(** What [subprocess] raises when [Popen(...)] or [communicate()] does not
    come back with an exit code: [OSError] when the program cannot be
    started, [ValueError] ([TypeError] on Python 3.4) for a command that
    holds U+0000, [UnicodeEncodeError] for one that holds a lone
    surrogate, or any other exception.  It is never an [AdbError], which
    only this module raises. *)
Inductive PopenError : Type :=
| PopenOSError
| PopenValueError
| PopenTypeError
| PopenUnicodeEncodeError
| PopenOther (name : string).

Definition popen_exn (e : PopenError) : Exn :=
  match e with
  | PopenOSError => ExOSError
  | PopenValueError => ExValueError
  | PopenTypeError => ExTypeError
  | PopenUnicodeEncodeError => ExUnicodeEncodeError
  | PopenOther name => ExOther name
  end.

(** What [Popen(cmd, stdout=PIPE, stderr=PIPE, shell=shell)] followed by
    [communicate()] and [returncode] yields: the two captured streams and
    the exit code, or the exception that [subprocess] raised instead. *)
Inductive Spawn : Type :=
| Exited (out err : bytes) (ret : Z)
| SpawnFailed (e : PopenError).

Definition Host := Cmd -> bool -> Spawn.

(** The effects of a call that are visible outside it. *)
Inductive Event : Type :=
| EvPopen (c : Cmd) (shell : bool)
| EvLogDebug (c : Cmd) (out err : bytes) (ret : Z).

(** ** The proxy object and its monad *)

Record AdbProxy : Type := mkAdbProxy {
  serial : pystr
}.

(** [AdbProxy.__init__(self, serial='')]. *)
Definition AdbProxy_init (serial : option pystr) : AdbProxy :=
  match serial with
  | Some s => mkAdbProxy s
  | None => mkAdbProxy []
  end.

(** A method body: it reads and may write [self], and yields a result and
    the events it caused. *)
Definition M (A : Type) : Type := AdbProxy -> Result A * AdbProxy * list Event.

Definition pure {A} (a : A) : M A := fun self => (Ok a, self, []).

Definition raise {A} (e : Exn) : M A := fun self => (Raise e, self, []).

Definition bind {A B} (m : M A) (k : A -> M B) : M B :=
  fun self =>
    match m self with
    | (Ok a, self1, evs1) =>
        match k a self1 with
        | (r, self2, evs2) => (r, self2, evs1 ++ evs2)
        end
    | (Raise e, self1, evs1) => (Raise e, self1, evs1)
    end.

Definition get_self : M AdbProxy := fun self => (Ok self, self, []).

Definition emit (ev : Event) : M unit := fun self => (Ok tt, self, [ev]).

Definition lift {A} (r : Result A) : M A := fun self => (r, self, []).

Notation "x <- m ;; k" := (bind m (fun x => k))
  (at level 61, m at next level, right associativity).
Notation "m ;;; k" := (bind m (fun _ => k))
  (at level 61, right associativity).

Definition result_of {A} (x : Result A * AdbProxy * list Event) : Result A :=
  fst (fst x).
Definition self_of {A} (x : Result A * AdbProxy * list Event) : AdbProxy :=
  snd (fst x).
Definition events_of {A} (x : Result A * AdbProxy * list Event) : list Event :=
  snd x.

(** The processes a list of events spawned, in order. *)
Fixpoint spawned (evs : list Event) : list (Cmd * bool) :=
  match evs with
  | [] => []
  | EvPopen c sh :: rest => (c, sh) :: spawned rest
  | EvLogDebug _ _ _ _ :: rest => spawned rest
  end.

(** ** Library functions of [str], [bytes] and [int] *)

(** Truth value of a string or list: non-empty. *)
Definition nonempty {A} (l : list A) : bool :=
  match l with
  | [] => false
  | _ :: _ => true
  end.

(** Truth value of a payload. *)
Definition truthy (p : Payload) : bool :=
  match p with
  | PNone => false
  | PStr s => nonempty s
  | PList l => nonempty l
  end.

(** [a or b]. *)
Definition py_or (a b : Payload) : Payload := if truthy a then a else b.

(** [s.replace(old, new)] for one-character [old] and [new]. *)
Definition replace (old new : codepoint) (s : pystr) : pystr :=
  map (fun c => if N.eqb c old then new else c) s.

Definition underscore : codepoint := 95%N.
Definition hyphen : codepoint := 45%N.

(** ['%d' % n] for an [int]. *)
Definition fmt_d (n : Z) : pystr := lit (NilZero.string_of_int (Z.to_int n)).

(** *** [bytes.decode('utf-8')]

    The strict decoder: shortest forms only, no surrogates, nothing above
    U+10FFFF. *)

Definition is_cont (b : N) : bool := (128 <=? b)%N && (b <=? 191)%N.

Definition in_range (lo hi b : N) : bool := (lo <=? b)%N && (b <=? hi)%N.

Fixpoint utf8_points (bs : list N) : option pystr :=
  match bs with
  | [] => Some []
  | b0 :: r0 =>
      if (b0 <? 128)%N then option_map (cons b0) (utf8_points r0)
      else if in_range 194 223 b0 then
        match r0 with
        | b1 :: r1 =>
            if is_cont b1
            then option_map (cons ((b0 - 192) * 64 + (b1 - 128))%N)
                            (utf8_points r1)
            else None
        | _ => None
        end
      else if in_range 224 239 b0 then
        match r0 with
        | b1 :: b2 :: r2 =>
            if (if (b0 =? 224)%N then in_range 160 191 b1
                else if (b0 =? 237)%N then in_range 128 159 b1
                else is_cont b1) && is_cont b2
            then option_map
                   (cons ((b0 - 224) * 4096 + (b1 - 128) * 64 + (b2 - 128))%N)
                   (utf8_points r2)
            else None
        | _ => None
        end
      else if in_range 240 244 b0 then
        match r0 with
        | b1 :: b2 :: b3 :: r3 =>
            if (if (b0 =? 240)%N then in_range 144 191 b1
                else if (b0 =? 244)%N then in_range 128 143 b1
                else is_cont b1) && is_cont b2 && is_cont b3
            then option_map
                   (cons ((b0 - 240) * 262144 + (b1 - 128) * 4096
                          + (b2 - 128) * 64 + (b3 - 128))%N)
                   (utf8_points r3)
            else None
        | _ => None
        end
      else None
  end.

Definition decode_utf8 (b : bytes) : Result pystr :=
  match utf8_points (map Byte.to_N b) with
  | Some s => Ok s
  | None => Raise ExUnicodeDecodeError
  end.

(** *** [str.strip()]

    The characters [str.isspace()] accepts, which [strip()] without an
    argument removes from both ends. *)
Definition isspace (c : codepoint) : bool :=
  in_range 9 13 c || in_range 28 32 c || (c =? 133)%N || (c =? 160)%N
  || (c =? 5760)%N || in_range 8192 8202 c || (c =? 8232)%N || (c =? 8233)%N
  || (c =? 8239)%N || (c =? 8287)%N || (c =? 12288)%N.

Fixpoint lstrip (s : pystr) : pystr :=
  match s with
  | [] => []
  | c :: r => if isspace c then lstrip r else s
  end.

Definition rstrip (s : pystr) : pystr := rev (lstrip (rev s)).

Definition strip (s : pystr) : pystr := rstrip (lstrip s).

(** *** [str.split(sep)] for a non-empty [sep]

    The string is cut at the leftmost occurrences of [sep] that do not
    overlap; [skip] counts the characters of a matched separator that are
    still to be passed over, [cur] holds the current segment reversed. *)
Fixpoint starts_with (sep s : pystr) : bool :=
  match sep, s with
  | [], _ => true
  | _ :: _, [] => false
  | a :: sep', b :: s' => (a =? b)%N && starts_with sep' s'
  end.

Fixpoint split_from (sep : pystr) (skip : nat) (cur : pystr) (s : pystr)
  : list pystr :=
  match s with
  | [] => [rev cur]
  | c :: s' =>
      match skip with
      | S k => split_from sep k cur s'
      | O =>
          if starts_with sep s
          then rev cur :: split_from sep (List.length sep - 1) [] s'
          else split_from sep 0 (c :: cur) s'
      end
  end.

Definition split (sep s : pystr) : list pystr := split_from sep 0 [] s.

(** *** [int(s)] for a [str]

    CPython reads the number in two steps.  The text is first brought to
    ASCII: a character above U+007F becomes a blank when it is
    whitespace, the digit [0]..[9] that the Unicode character database
    gives it when it is a decimal digit of any script, and ends the
    buffer with a [?] otherwise; the other characters stay.  The buffer is
    then read in base 10: the C whitespace (tab to carriage return, and
    the blank) is skipped, one sign is taken, at least one digit must
    follow, and after the digits only C whitespace may come.  So
    U+001C..U+001F, which [strip()] removes, are not skipped by [int].

    The decimal-digit table of the Unicode character database is not part
    of the module and changes with the version of Python: it is a
    parameter, consulted for the characters above U+007F only.  The
    digit-group underscores of Python 3.6 are not accepted: the module
    targets Python 3.4. *)
Definition DecimalTable := codepoint -> option N.

Definition Py_ISSPACE (c : codepoint) : bool :=
  in_range 9 13 c || (c =? 32)%N.

Definition is_digit (c : codepoint) : bool := in_range 48 57 c.

Fixpoint to_ascii_buffer (decimal : DecimalTable) (s : pystr) : pystr :=
  match s with
  | [] => []
  | ch :: r =>
      if (ch <=? 127)%N then ch :: to_ascii_buffer decimal r
      else if isspace ch then 32%N :: to_ascii_buffer decimal r
      else
        match decimal ch with
        | Some d =>
            if (d <=? 9)%N then (48 + d)%N :: to_ascii_buffer decimal r
            else [63%N]
        | None => [63%N]
        end
  end.

Fixpoint skip_spaces (s : pystr) : pystr :=
  match s with
  | [] => []
  | c :: r => if Py_ISSPACE c then skip_spaces r else s
  end.

(** The digits at the front of [s], read into [acc], and what follows
    them. *)
Fixpoint scan_digits (s : pystr) (acc : Z) : Z * pystr :=
  match s with
  | [] => (acc, [])
  | c :: r =>
      if is_digit c then scan_digits r (10 * acc + Z.of_N (c - 48))
      else (acc, s)
  end.

Definition int (decimal : DecimalTable) (s : pystr) : Result Z :=
  let buffer := to_ascii_buffer decimal s in
  let str := skip_spaces buffer in
  let '(sign, str) :=
    match str with
    | c :: r =>
        if (c =? 43)%N then (1%Z, r)
        else if (c =? 45)%N then ((-1)%Z, r)
        else (1%Z, str)
    | [] => (1%Z, str)
    end in
  match str with
  | [] => Raise ExValueError
  | c :: _ =>
      if is_digit c then
        let '(n, rest) := scan_digits str 0 in
        match skip_spaces rest with
        | [] => Ok (sign * n)%Z
        | _ :: _ => Raise ExValueError
        end
      else Raise ExValueError
  end.

(** The whitespace that [int] accepts around the digits: that of
    [isspace] without U+001C..U+001F. *)
Definition int_isspace (c : codepoint) : bool :=
  isspace c && negb (in_range 28 31 c).

(** What the buffer holds for a character that is ASCII or whitespace. *)
Definition squash (c : codepoint) : codepoint :=
  if (c <=? 127)%N then c else 32%N.

(** A table that knows the Arabic-Indic digits U+0660..U+0669 only. *)
Definition arabic_indic : DecimalTable :=
  fun c => if in_range 1632 1641 c then Some (c - 1632)%N else None.

(** ** [AdbProxy]'s methods *)

Section Methods.

Variable host : Host.

(** [_exec_cmd(self, cmd, shell=True)]. *)
Definition _exec_cmd (cmd : Cmd) (shell : bool) : M bytes :=
  emit (EvPopen cmd shell) ;;;
  match host cmd shell with
  | SpawnFailed e => raise (popen_exn e)
  | Exited out err ret =>
      emit (EvLogDebug cmd out err ret) ;;;
      if Z.eqb ret 0 then pure out
      else raise (ExAdbError (mkAdbError cmd out err ret))
  end.

(** [_exec_adb_cmd(self, name, args)].  The three cases of the match are
    the outcomes of [shell = isinstance(args, basestring)]: a string takes
    the first branch of [if shell], a list the second, and for [None] the
    second branch raises [TypeError] at [[name] + args], before anything
    is executed. *)
Definition _exec_adb_cmd (name : pystr) (args : Payload) : M bytes :=
  self <- get_self ;;
  match args with
  | PStr a =>
      let adb_cmd :=
        if nonempty (serial self)
        then lit "adb -s " ++ dquote ++ serial self ++ dquote ++ lit " "
             ++ name ++ lit " " ++ a
        else lit "adb " ++ name ++ lit " " ++ a in
      _exec_cmd (CmdStr adb_cmd) true
  | PList l =>
      let adb_cmd := [lit "adb"] in
      let adb_cmd :=
        if nonempty (serial self)
        then adb_cmd ++ [lit "-s"; serial self]
        else adb_cmd in
      let adb_cmd := adb_cmd ++ ([name] ++ l) in
      _exec_cmd (CmdList adb_cmd) false
  | PNone => raise ExTypeError
  end.

(** The closure [adb_call(args=None)] that [__getattr__(self, name)]
    returns. *)
Definition adb_call (name : pystr) (args : Payload) : M bytes :=
  let args := py_or args (PStr (lit "")) in
  let clean_name := replace underscore hyphen name in
  _exec_adb_cmd clean_name args.

Definition __getattr__ (name : pystr) : Payload -> M bytes := adb_call name.

(** [tcp_forward(self, host_port, device_port)].  [self.forward] is not an
    attribute of the class, so it is resolved by [__getattr__]; the value
    of the call is dropped and the method returns [None]. *)
Definition tcp_forward (host_port device_port : Z) : M unit :=
  __getattr__ (lit "forward")
    (PStr (lit "tcp:" ++ fmt_d host_port ++ lit " tcp:" ++ fmt_d device_port)) ;;;
  pure tt.

(** [getprop(self, prop_name)]; [self.shell] is resolved by
    [__getattr__] too. *)
Definition getprop (prop_name : pystr) : M pystr :=
  out <- __getattr__ (lit "shell") (PStr (lit "getprop " ++ prop_name)) ;;
  text <- lift (decode_utf8 out) ;;
  pure (strip text).

End Methods.

(** [list_occupied_adb_ports()]: the loop over [clean_lines], with
    [used_ports] as its accumulator.  The function and its parts take the
    decimal-digit table that [int] consults. *)
Fixpoint used_ports_loop (decimal : DecimalTable) (clean_lines : list pystr)
  (used_ports : list Z) : Result (list Z) :=
  match clean_lines with
  | [] => Ok used_ports
  | line :: rest =>
      let tokens := split (lit " tcp:") line in
      if negb (Nat.eqb (List.length tokens) 3)
      then used_ports_loop decimal rest used_ports
      else
        match int decimal (nth 1 tokens []) with
        | Ok port => used_ports_loop decimal rest (used_ports ++ [port])
        | Raise e => Raise e
        end
  end.

(** What follows [out = AdbProxy().forward('--list')]. *)
Definition parse_forward_list (decimal : DecimalTable) (out : bytes)
  : Result (list Z) :=
  match decode_utf8 out with
  | Ok text =>
      let clean_lines := split [10%N] (strip text) in
      used_ports_loop decimal clean_lines []
  | Raise e => Raise e
  end.

Definition list_occupied_adb_ports (decimal : DecimalTable) (host : Host)
  : Result (list Z) * list Event :=
  let r := __getattr__ host (lit "forward") (PStr (lit "--list"))
             (AdbProxy_init None) in
  match result_of r with
  | Ok out => (parse_forward_list decimal out, events_of r)
  | Raise e => (Raise e, events_of r)
  end.

(** ** The class's operations, as a caller sees them

    [OpCall name args] is the call [__getattr__(name)(args)], which is what
    [adb.<name>(args)] means for every name that is not defined on the
    class; [tcp_forward] and [getprop] are the two defined methods. *)
Inductive Op : Type :=
| OpCall (name : pystr) (args : Payload)
| OpTcpForward (host_port device_port : Z)
| OpGetprop (prop_name : pystr).

(** The object and the events an operation leaves behind. *)
Definition perform (host : Host) (op : Op) (self : AdbProxy)
  : AdbProxy * list Event :=
  match op with
  | OpCall name args =>
      let r := __getattr__ host name args self in (self_of r, events_of r)
  | OpTcpForward host_port device_port =>
      let r := tcp_forward host host_port device_port self in
      (self_of r, events_of r)
  | OpGetprop prop_name =>
      let r := getprop host prop_name self in (self_of r, events_of r)
  end.

Fixpoint perform_all (host : Host) (ops : list Op) (self : AdbProxy)
  : AdbProxy * list Event :=
  match ops with
  | [] => (self, [])
  | op :: rest =>
      let '(self1, evs1) := perform host op self in
      let '(self2, evs2) := perform_all host rest self1 in
      (self2, evs1 ++ evs2)
  end.

(** ** What the specification says a command looks like *)

(** The target selection inside a shell command line: [-s "<target>" ],
    or nothing for the empty identifier. *)
Definition shell_target (target : pystr) : pystr :=
  match target with
  | [] => []
  | _ :: _ => lit "-s " ++ dquote ++ target ++ dquote ++ lit " "
  end.

(** The target selection inside an argument vector: the two elements
    [-s] and [<target>], or nothing for the empty identifier. *)
Definition argv_target (target : pystr) : list pystr :=
  match target with
  | [] => []
  | _ :: _ => [lit "-s"; target]
  end.

(** Shell mode: binary, optional target flag, subcommand, argument string,
    as one string. *)
Definition shell_command (target token arg : pystr) : Cmd * bool :=
  (CmdStr (lit "adb " ++ shell_target target ++ token ++ lit " " ++ arg),
   true).

(** Vector mode: binary, optional flag pair, subcommand, then each token. *)
Definition argv_command (target token : pystr) (tokens : list pystr)
  : Cmd * bool :=
  (CmdList ([lit "adb"] ++ argv_target target ++ [token] ++ tokens), false).

(** The subcommand token and the payload an operation hands to
    [_exec_adb_cmd]. *)
Definition op_token (op : Op) : pystr :=
  match op with
  | OpCall name _ => replace underscore hyphen name
  | OpTcpForward _ _ => lit "forward"
  | OpGetprop _ => lit "shell"
  end.

Definition op_command (target : pystr) (op : Op) : Cmd * bool :=
  match op with
  | OpCall name (PList (t :: l)) =>
      argv_command target (op_token op) (t :: l)
  | OpCall name (PStr a) => shell_command target (op_token op) a
  | OpCall name _ => shell_command target (op_token op) []
  | OpTcpForward host_port device_port =>
      shell_command target (op_token op)
        (lit "tcp:" ++ fmt_d host_port ++ lit " tcp:" ++ fmt_d device_port)
  | OpGetprop prop_name =>
      shell_command target (op_token op) (lit "getprop " ++ prop_name)
  end.

(** ** What the specification says the port lister returns *)

(** The port lister in the words of the specification: a line is a
    forwarding entry when it splits into exactly three segments, the
    entry's port is its segment at position 1 read as an integer, and the
    ports come in the order of the lines; the first segment that is not
    an integer fails the whole listing. *)
Definition is_entry (tokens : list pystr) : bool :=
  Nat.eqb (List.length tokens) 3.

Fixpoint parse_ints (decimal : DecimalTable) (segments : list pystr)
  : Result (list Z) :=
  match segments with
  | [] => Ok []
  | s :: rest =>
      match int decimal s with
      | Ok n =>
          match parse_ints decimal rest with
          | Ok l => Ok (n :: l)
          | Raise e => Raise e
          end
      | Raise e => Raise e
      end
  end.

Definition entries (text : pystr) : list (list pystr) :=
  filter is_entry (map (split (lit " tcp:")) (split [10%N] (strip text))).

Definition spec_ports (decimal : DecimalTable) (text : pystr)
  : Result (list Z) :=
  parse_ints decimal (map (fun tokens => nth 1 tokens []) (entries text)).

(** The sample output of the specification. *)
Definition sample_out : bytes :=
  blit "emulator-5554 tcp:5037 tcp:5555" ++ [x0a]
  ++ blit "malformed-line-no-tcp-tokens" ++ [x0a]
  ++ blit "emulator-5556 tcp:6000 tcp:7000" ++ [x0a].

(** An output whose ports are neither sorted nor distinct. *)
Definition unsorted_out : bytes :=
  blit "emulator-5554 tcp:6000 tcp:5555" ++ [x0a]
  ++ blit "emulator-5556 tcp:5037 tcp:7000" ++ [x0a]
  ++ blit "emulator-5558 tcp:6000 tcp:7001" ++ [x0a].

(** [bytes.isspace()] of one byte: the ASCII whitespace. *)
Definition byte_isspace (b : byte) : bool :=
  in_range 9 13 (Byte.to_N b) || (Byte.to_N b =? 32)%N.

(** ** The listing that [adb forward --list] prints

    One line per forwarding, [<serial> tcp:<host_port> <remote>], where the
    remote is [tcp:<port>] or another device-side spec such as
    [localabstract:<name>]; these definitions describe that text, they are
    not part of the module. *)

(** [sep.join(parts)]. *)
Fixpoint join (sep : pystr) (parts : list pystr) : pystr :=
  match parts with
  | [] => []
  | [p] => p
  | p :: rest => p ++ sep ++ join sep rest
  end.

(** A character that is not whitespace, and a non-empty run of them. *)
Definition plain (c : codepoint) : bool := negb (isspace c).

Definition word (s : pystr) : bool := nonempty s && forallb plain s.

Record Forward : Type := mkForward {
  fw_serial : pystr;
  fw_host_port : Z;
  fw_remote : pystr
}.

Definition forward_line (f : Forward) : pystr :=
  fw_serial f ++ lit " tcp:" ++ fmt_d (fw_host_port f) ++ lit " "
  ++ fw_remote f.

Definition well_formed (f : Forward) : bool :=
  word (fw_serial f) && word (fw_remote f).

Definition remote_is_tcp (f : Forward) : bool :=
  starts_with (lit "tcp:") (fw_remote f).

(** A listing with one [tcp:] remote and one that is not. *)
Definition mixed_out : bytes :=
  blit "emulator-5554 tcp:5037 tcp:5555" ++ [x0a]
  ++ blit "emulator-5554 tcp:6100 localabstract:scrcpy" ++ [x0a].

(** A text with no whitespace at either end ([strip] leaves it as it
    is); the empty text is one. *)
Definition trimmed (s : pystr) : bool :=
  match s with
  | [] => true
  | c :: _ => plain c && plain (last s c)
  end.

(** The decimal digits of ['%d'], most significant first. *)
Definition digits (d : Decimal.uint) : pystr :=
  lit (NilEmpty.string_of_uint d).

(** What one operation leaves in the event log: the process it spawns
    and, once that process has ended, the debug line of [_exec_cmd]. *)
Definition op_events (host : Host) (target : pystr) (op : Op) : list Event :=
  EvPopen (fst (op_command target op)) (snd (op_command target op))
  :: match host (fst (op_command target op)) (snd (op_command target op)) with
     | Exited out err ret =>
         [EvLogDebug (fst (op_command target op)) out err ret]
     | SpawnFailed _ => []
     end.

(** ** Lemmas on the monad and the execution primitive *)

Lemma exec_cmd_eq (host : Host) (c : Cmd) (shell : bool) (self : AdbProxy) :
  _exec_cmd host c shell self =
  match host c shell with
  | SpawnFailed e => (Raise (popen_exn e), self, [EvPopen c shell])
  | Exited out err ret =>
      (if Z.eqb ret 0 then Ok out
       else Raise (ExAdbError (mkAdbError c out err ret)),
       self, [EvPopen c shell; EvLogDebug c out err ret])
  end.
Proof.
  unfold _exec_cmd, bind, emit, pure, raise.
  destruct (host c shell) as [out err ret|]; [|reflexivity].
  destruct (Z.eqb ret 0); reflexivity.
Qed.

Lemma exec_cmd_self (host : Host) (c : Cmd) (shell : bool) (self : AdbProxy) :
  self_of (_exec_cmd host c shell self) = self.
Proof.
  rewrite exec_cmd_eq.
  destruct (host c shell) as [out err ret|]; reflexivity.
Qed.

Lemma exec_cmd_spawned (host : Host) (c : Cmd) (shell : bool)
  (self : AdbProxy) :
  spawned (events_of (_exec_cmd host c shell self)) = [(c, shell)].
Proof.
  rewrite exec_cmd_eq.
  destruct (host c shell) as [out err ret|]; reflexivity.
Qed.

Lemma nonempty_shell_target (target name a : pystr) :
  (if nonempty target
   then lit "adb -s " ++ dquote ++ target ++ dquote ++ lit " "
        ++ name ++ lit " " ++ a
   else lit "adb " ++ name ++ lit " " ++ a)
  = lit "adb " ++ shell_target target ++ name ++ lit " " ++ a.
Proof.
  destruct target as [|c target]; [reflexivity|].
  cbn [nonempty shell_target].
  change (lit "adb -s ") with (lit "adb " ++ lit "-s ").
  now rewrite <- !app_assoc.
Qed.

Lemma nonempty_argv_target (target name : pystr) (l : list pystr) :
  (if nonempty target then [lit "adb"] ++ [lit "-s"; target]
   else [lit "adb"]) ++ ([name] ++ l)
  = [lit "adb"] ++ argv_target target ++ [name] ++ l.
Proof.
  destruct target; reflexivity.
Qed.

(** [_exec_adb_cmd] on a string: one shell command. *)
Lemma exec_adb_cmd_str (host : Host) (name a : pystr) (self : AdbProxy) :
  _exec_adb_cmd host name (PStr a) self =
  _exec_cmd host (fst (shell_command (serial self) name a)) true self.
Proof.
  unfold _exec_adb_cmd, bind, get_self, shell_command; cbn [fst].
  rewrite nonempty_shell_target.
  destruct (_exec_cmd host _ true self) as [[r s] e].
  reflexivity.
Qed.

(** [_exec_adb_cmd] on a list: one argument vector. *)
Lemma exec_adb_cmd_list (host : Host) (name : pystr) (l : list pystr)
  (self : AdbProxy) :
  _exec_adb_cmd host name (PList l) self =
  _exec_cmd host (fst (argv_command (serial self) name l)) false self.
Proof.
  unfold _exec_adb_cmd, bind, get_self, argv_command; cbn [fst].
  rewrite nonempty_argv_target.
  destruct (_exec_cmd host _ false self) as [[r s] e].
  reflexivity.
Qed.

(** What a dispatched call executes, by the shape of its payload. *)
Lemma adb_call_eq (host : Host) (name : pystr) (args : Payload)
  (self : AdbProxy) :
  __getattr__ host name args self =
  let c := op_command (serial self) (OpCall name args) in
  _exec_cmd host (fst c) (snd c) self.
Proof.
  unfold __getattr__, adb_call.
  destruct args as [|a|l].
  - cbn [py_or truthy]. rewrite exec_adb_cmd_str. reflexivity.
  - destruct a as [|c a].
    + cbn [py_or truthy nonempty]. rewrite exec_adb_cmd_str. reflexivity.
    + cbn [py_or truthy nonempty]. rewrite exec_adb_cmd_str. reflexivity.
  - destruct l as [|t l].
    + cbn [py_or truthy nonempty]. rewrite exec_adb_cmd_str. reflexivity.
    + cbn [py_or truthy nonempty]. rewrite exec_adb_cmd_list. reflexivity.
Qed.

Lemma bind_self {A B} (m : M A) (k : A -> M B) (self : AdbProxy) :
  self_of (m self) = self ->
  (forall a, self_of (k a self) = self) ->
  self_of (bind m k self) = self.
Proof.
  unfold bind, self_of. intros Hm Hk.
  destruct (m self) as [[[a|e] s1] e1]; cbn in *; subst.
  - specialize (Hk a). destruct (k a self) as [[r s2] e2]. exact Hk.
  - reflexivity.
Qed.

Lemma bind_events_ok {A B} (m : M A) (k : A -> M B) (self : AdbProxy) :
  (forall a s, events_of (k a s) = []) ->
  events_of (bind m k self) = events_of (m self).
Proof.
  unfold bind, events_of. intros Hk.
  destruct (m self) as [[[a|e] s1] e1]; cbn.
  - specialize (Hk a s1). destruct (k a s1) as [[r s2] e2]. cbn in *.
    subst. apply app_nil_r.
  - reflexivity.
Qed.

Lemma perform_self (host : Host) (op : Op) (self : AdbProxy) :
  fst (perform host op self) = self.
Proof.
  destruct op as [name args|hp dp|prop]; cbn [perform fst].
  - rewrite adb_call_eq. apply exec_cmd_self.
  - unfold tcp_forward. apply bind_self.
    + rewrite adb_call_eq. apply exec_cmd_self.
    + reflexivity.
  - unfold getprop. apply bind_self.
    + rewrite adb_call_eq. apply exec_cmd_self.
    + intros out. apply bind_self; reflexivity.
Qed.

Lemma perform_spawned (host : Host) (op : Op) (self : AdbProxy) :
  spawned (snd (perform host op self)) = [op_command (serial self) op].
Proof.
  destruct op as [name args|hp dp|prop]; cbn [perform snd].
  - rewrite adb_call_eq. cbv zeta. rewrite exec_cmd_spawned.
    now destruct (op_command _ _).
  - unfold tcp_forward. rewrite bind_events_ok by reflexivity.
    rewrite adb_call_eq. cbv zeta. rewrite exec_cmd_spawned. reflexivity.
  - unfold getprop. rewrite bind_events_ok.
    + rewrite adb_call_eq. cbv zeta. rewrite exec_cmd_spawned. reflexivity.
    + intros out s. apply bind_events_ok. reflexivity.
Qed.

Lemma spawned_app (e1 e2 : list Event) :
  spawned (e1 ++ e2) = spawned e1 ++ spawned e2.
Proof.
  induction e1 as [|[c sh|c o e r] e1 IH]; cbn; [reflexivity| |exact IH].
  now rewrite IH.
Qed.

(** ** The execution primitive *)

(** C1.  Whenever the spawned process exits with code 0, [_exec_cmd]
    returns the captured stdout unchanged and raises nothing, whatever was
    captured on stderr; the object is left as it was. *)
Theorem exec_cmd_exit_zero_returns_stdout
  (host : Host) (c : Cmd) (shell : bool) (self : AdbProxy)
  (out err : bytes) :
  host c shell = Exited out err 0 ->
  result_of (_exec_cmd host c shell self) = Ok out
  /\ self_of (_exec_cmd host c shell self) = self.
Proof.
  intros Hrun. rewrite exec_cmd_eq, Hrun. split; reflexivity.
Qed.

Lemma exec_cmd_exit_zero_returns_stdout_witness :
  result_of
    (_exec_cmd (fun _ _ => Exited (blit "List of devices attached")
                                  (blit "* daemon started successfully *") 0)
       (CmdStr (lit "adb devices ")) true (AdbProxy_init None))
  = Ok (blit "List of devices attached")
  /\ self_of
       (_exec_cmd (fun _ _ => Exited (blit "List of devices attached")
                                     (blit "* daemon started successfully *") 0)
          (CmdStr (lit "adb devices ")) true (AdbProxy_init None))
     = AdbProxy_init None.
Proof.
  apply (exec_cmd_exit_zero_returns_stdout
           (fun _ _ => Exited (blit "List of devices attached")
                              (blit "* daemon started successfully *") 0)
           (CmdStr (lit "adb devices ")) true (AdbProxy_init None)
           (blit "List of devices attached")
           (blit "* daemon started successfully *")).
  reflexivity.
Defined.

(** C2.  [_exec_cmd] raises [AdbError] exactly when the process was
    spawned and exited with a non-zero code, and then the error carries
    the command that was attempted, the captured stdout, the captured
    stderr and that exit code. *)
Theorem exec_cmd_raises_adb_error_iff_nonzero
  (host : Host) (c : Cmd) (shell : bool) (self : AdbProxy) :
  ((exists e, result_of (_exec_cmd host c shell self) = Raise (ExAdbError e))
   <-> (exists out err ret, host c shell = Exited out err ret /\ ret <> 0%Z))
  /\ (forall e,
        result_of (_exec_cmd host c shell self) = Raise (ExAdbError e) ->
        exists out err ret,
          host c shell = Exited out err ret /\ ret <> 0%Z
          /\ cmd e = c /\ stdout e = out /\ stderr e = err
          /\ ret_code e = ret)
  /\ (forall out err ret,
        host c shell = Exited out err ret -> ret <> 0%Z ->
        result_of (_exec_cmd host c shell self)
        = Raise (ExAdbError (mkAdbError c out err ret))).
Proof.
  rewrite exec_cmd_eq.
  destruct (host c shell) as [out err ret|pe] eqn:Hrun; cbn [result_of fst].
  - destruct (Z.eqb_spec ret 0) as [Hz|Hnz].
    + split; [split|split].
      * intros [e He]. discriminate He.
      * intros (o & e & r & Heq & Hr). injection Heq as _ _ <-.
        contradiction.
      * intros e He. discriminate He.
      * intros o e r Heq Hr. injection Heq as _ _ <-. contradiction.
    + split; [split|split].
      * intros _. exists out, err, ret. split; [reflexivity|exact Hnz].
      * intros _. eexists. reflexivity.
      * intros e He. injection He as <-.
        exists out, err, ret. cbn. repeat split; assumption.
      * intros o e r Heq _. injection Heq as <- <- <-. reflexivity.
  - split; [split|split].
    + intros [e He]. destruct pe; discriminate He.
    + intros (o & e & r & Heq & _). discriminate Heq.
    + intros e He. destruct pe; discriminate He.
    + intros o e r Heq. discriminate Heq.
Qed.

(** An instance of C2: [adb] exits with 1 and the error repeats the four
    values. *)
Example exec_cmd_adb_error_example :
  result_of
    (_exec_cmd (fun _ _ => Exited (blit "") (blit "error: no devices") 1)
       (CmdList [lit "adb"; lit "shell"; lit "ls"]) false
       (AdbProxy_init None))
  = Raise (ExAdbError
             (mkAdbError (CmdList [lit "adb"; lit "shell"; lit "ls"])
                (blit "") (blit "error: no devices") 1)).
Proof. reflexivity. Qed.

(** ** Dispatch *)

(** A payload that is a string, empty or not, is run by the shell. *)
Lemma dispatch_string_uses_shell (host : Host) (name a : pystr)
  (self : AdbProxy) :
  spawned (events_of (__getattr__ host name (PStr a) self))
  = [shell_command (serial self) (replace underscore hyphen name) a].
Proof.
  rewrite adb_call_eq. cbv zeta. rewrite exec_cmd_spawned.
  destruct a; reflexivity.
Qed.

(** A payload that is a non-empty list is run as an argument vector. *)
Lemma dispatch_nonempty_list_uses_argv (host : Host) (name t : pystr)
  (l : list pystr) (self : AdbProxy) :
  spawned (events_of (__getattr__ host name (PList (t :: l)) self))
  = [argv_command (serial self) (replace underscore hyphen name) (t :: l)].
Proof.
  rewrite adb_call_eq. cbv zeta. rewrite exec_cmd_spawned. reflexivity.
Qed.

(** X1.  What [_exec_adb_cmd] is handed decides the mode: a string gives
    one command line for the shell, a list, empty or not, gives an
    argument vector run without a shell, and [None] raises [TypeError]
    before any process is spawned.  Through the dispatch the same holds
    for a string and for a list that is not empty. *)
Theorem exec_adb_cmd_mode_follows_payload
  (host : Host) (name : pystr) (self : AdbProxy) :
  (forall a,
     spawned (events_of (_exec_adb_cmd host name (PStr a) self))
     = [(CmdStr (lit "adb " ++ shell_target (serial self) ++ name
                 ++ lit " " ++ a), true)])
  /\ (forall l,
        spawned (events_of (_exec_adb_cmd host name (PList l) self))
        = [(CmdList ([lit "adb"] ++ argv_target (serial self) ++ [name] ++ l),
            false)])
  /\ _exec_adb_cmd host name PNone self = (Raise ExTypeError, self, [])
  /\ (forall a,
        spawned (events_of (__getattr__ host name (PStr a) self))
        = [(CmdStr (lit "adb " ++ shell_target (serial self)
                    ++ replace underscore hyphen name ++ lit " " ++ a),
            true)])
  /\ (forall t l,
        spawned (events_of (__getattr__ host name (PList (t :: l)) self))
        = [(CmdList ([lit "adb"] ++ argv_target (serial self)
                     ++ [replace underscore hyphen name] ++ t :: l), false)]).
Proof.
  split; [|split; [|split; [|split]]].
  - intros a. rewrite exec_adb_cmd_str. apply exec_cmd_spawned.
  - intros l. rewrite exec_adb_cmd_list. apply exec_cmd_spawned.
  - reflexivity.
  - intros a. apply dispatch_string_uses_shell.
  - intros t l. apply dispatch_nonempty_list_uses_argv.
Qed.

(** C3, at the payload where the code leaves the claim.  The call
    [adb.devices([])] hands a list of tokens to the dispatch, and the
    command is one string run by the shell, not the argument vector
    [['adb', 'devices']]. *)
Theorem dispatch_empty_list_runs_through_shell (host : Host) :
  spawned
    (events_of
       (__getattr__ host (lit "devices") (PList []) (AdbProxy_init None)))
  = [(CmdStr (lit "adb devices "), true)]
  /\ argv_command [] (lit "devices") []
     = (CmdList [lit "adb"; lit "devices"], false)
  /\ (CmdStr (lit "adb devices "), true)
     <> argv_command [] (lit "devices") [].
Proof.
  split; [|split].
  - rewrite adb_call_eq. cbv zeta. rewrite exec_cmd_spawned. reflexivity.
  - reflexivity.
  - discriminate.
Qed.

(** C4.  The subcommand token of a dispatched call is the requested name
    with every underscore replaced by a hyphen, whatever the payload: it
    is the token of the one command that is executed when the payload is
    a string (empty or not), a list of at least one token, missing or
    the empty list.  The token has the length of the name, differs from
    the name only where the name has an underscore, and holds no
    underscore; [tcp_forward] gives [tcp-forward]. *)
Theorem dispatch_replaces_underscores
  (host : Host) (name : pystr) (self : AdbProxy) :
  (forall a,
     spawned (events_of (__getattr__ host name (PStr a) self))
     = [(CmdStr (lit "adb " ++ shell_target (serial self)
                 ++ replace underscore hyphen name ++ lit " " ++ a), true)])
  /\ (forall t l,
        spawned (events_of (__getattr__ host name (PList (t :: l)) self))
        = [(CmdList ([lit "adb"] ++ argv_target (serial self)
                     ++ [replace underscore hyphen name] ++ t :: l), false)])
  /\ spawned (events_of (__getattr__ host name PNone self))
     = [(CmdStr (lit "adb " ++ shell_target (serial self)
                 ++ replace underscore hyphen name ++ lit " "), true)]
  /\ spawned (events_of (__getattr__ host name (PList []) self))
     = [(CmdStr (lit "adb " ++ shell_target (serial self)
                 ++ replace underscore hyphen name ++ lit " "), true)]
  /\ (forall args,
        __getattr__ host name args self
        = _exec_adb_cmd host (replace underscore hyphen name)
            (py_or args (PStr (lit ""))) self)
  /\ List.length (replace underscore hyphen name) = List.length name
  /\ (forall i c,
        nth_error name i = Some c ->
        nth_error (replace underscore hyphen name) i
        = Some (if N.eqb c underscore then hyphen else c))
  /\ ~ In underscore (replace underscore hyphen name)
  /\ replace underscore hyphen (lit "tcp_forward") = lit "tcp-forward".
Proof.
  assert (Hnone : forall args,
            py_or args (PStr (lit "")) = PStr (lit "") ->
            spawned (events_of (__getattr__ host name args self))
            = [(CmdStr (lit "adb " ++ shell_target (serial self)
                        ++ replace underscore hyphen name ++ lit " "),
                true)]).
  { intros args Hor. unfold __getattr__, adb_call. cbv zeta. rewrite Hor.
    rewrite exec_adb_cmd_str, exec_cmd_spawned.
    unfold shell_command. cbn [fst]. now rewrite app_nil_r. }
  split; [|split; [|split; [|split; [|split; [|split; [|split; [|split]]]]]]].
  - intros a. apply dispatch_string_uses_shell.
  - intros t l. apply dispatch_nonempty_list_uses_argv.
  - apply Hnone. reflexivity.
  - apply Hnone. reflexivity.
  - intros args. reflexivity.
  - apply length_map.
  - intros i c Hc. unfold replace, codepoint in *.
    rewrite nth_error_map, Hc. reflexivity.
  - unfold replace. rewrite in_map_iff. intros (c & Hc & _).
    destruct (N.eqb c underscore) eqn:Heq.
    + discriminate Hc.
    + subst c. discriminate Heq.
  - reflexivity.
Qed.

(** C10.  An empty list of tokens is treated like a missing payload:
    [args or ''] turns both into the empty string before
    [_exec_adb_cmd] looks at the type, the two calls are the same
    computation, the one command they spawn is a shell string that ends
    after the subcommand token and its separating blank, and nothing the
    call spawns is an argument vector. *)
Theorem dispatch_empty_list_is_no_payload
  (host : Host) (name : pystr) (self : AdbProxy) :
  py_or (PList []) (PStr (lit "")) = PStr (lit "")
  /\ py_or PNone (PStr (lit "")) = PStr (lit "")
  /\ __getattr__ host name (PList []) self = __getattr__ host name PNone self
  /\ spawned (events_of (__getattr__ host name (PList []) self))
     = [(CmdStr (lit "adb " ++ shell_target (serial self)
                 ++ replace underscore hyphen name ++ lit " "), true)]
  /\ (forall c sh,
        In (c, sh) (spawned (events_of (__getattr__ host name (PList []) self)))
        -> sh = true /\ exists s, c = CmdStr s).
Proof.
  assert (Hsp : spawned (events_of (__getattr__ host name (PList []) self))
                = [(CmdStr (lit "adb " ++ shell_target (serial self)
                            ++ replace underscore hyphen name ++ lit " "),
                    true)]).
  { rewrite adb_call_eq. cbv zeta. rewrite exec_cmd_spawned.
    cbn [op_command op_token]. unfold shell_command. cbn [fst snd].
    now rewrite app_nil_r. }
  split; [reflexivity|].
  split; [reflexivity|].
  split; [reflexivity|].
  split; [exact Hsp|].
  intros c sh Hin. rewrite Hsp in Hin.
  destruct Hin as [Heq|[]]. injection Heq as <- <-.
  split; [reflexivity|]. eexists. reflexivity.
Qed.

(** ** The two defined methods *)

Lemma tcp_forward_eq (host : Host) (hp dp : Z) (self : AdbProxy) :
  tcp_forward host hp dp self =
  let r := __getattr__ host (lit "forward")
             (PStr (lit "tcp:" ++ fmt_d hp ++ lit " tcp:" ++ fmt_d dp)) self in
  (match result_of r with
   | Ok _ => Ok tt
   | Raise e => Raise e
   end, self_of r, events_of r).
Proof.
  unfold tcp_forward, bind, pure. cbv zeta.
  destruct (__getattr__ host _ _ self) as [[[out|e] s] evs]; cbn.
  - now rewrite app_nil_r.
  - reflexivity.
Qed.

(** C7.  On a proxy with the empty target identifier,
    [tcp_forward(5555, 8080)] is the dispatched call [forward] with the
    one string [tcp:5555 tcp:8080]: the same events and the same object,
    one process, run by the shell from the command line
    [adb forward tcp:5555 tcp:8080] with no target flag; what the call
    returns is dropped, so the method only succeeds or raises what the
    call raised. *)
Theorem tcp_forward_5555_8080 (host : Host) (self : AdbProxy) :
  serial self = [] ->
  events_of (tcp_forward host 5555 8080 self)
  = events_of (__getattr__ host (lit "forward")
                 (PStr (lit "tcp:5555 tcp:8080")) self)
  /\ self_of (tcp_forward host 5555 8080 self)
     = self_of (__getattr__ host (lit "forward")
                  (PStr (lit "tcp:5555 tcp:8080")) self)
  /\ spawned (events_of (tcp_forward host 5555 8080 self))
     = [(CmdStr (lit "adb forward tcp:5555 tcp:8080"), true)]
  /\ result_of (tcp_forward host 5555 8080 self)
     = match result_of (__getattr__ host (lit "forward")
                          (PStr (lit "tcp:5555 tcp:8080")) self) with
       | Ok _ => Ok tt
       | Raise e => Raise e
       end.
Proof.
  intros Hserial. rewrite tcp_forward_eq. cbv zeta.
  change (lit "tcp:" ++ fmt_d 5555 ++ lit " tcp:" ++ fmt_d 8080)
    with (lit "tcp:5555 tcp:8080").
  cbn [events_of self_of result_of fst snd].
  split; [reflexivity|]. split; [reflexivity|]. split; [|reflexivity].
  rewrite dispatch_string_uses_shell, Hserial. reflexivity.
Qed.

Lemma tcp_forward_5555_8080_witness :
  events_of (tcp_forward (fun _ _ => Exited [] [] 0) 5555 8080
               (AdbProxy_init None))
  = events_of (__getattr__ (fun _ _ => Exited [] [] 0) (lit "forward")
                 (PStr (lit "tcp:5555 tcp:8080")) (AdbProxy_init None))
  /\ self_of (tcp_forward (fun _ _ => Exited [] [] 0) 5555 8080
                (AdbProxy_init None))
     = self_of (__getattr__ (fun _ _ => Exited [] [] 0) (lit "forward")
                  (PStr (lit "tcp:5555 tcp:8080")) (AdbProxy_init None))
  /\ spawned (events_of (tcp_forward (fun _ _ => Exited [] [] 0) 5555 8080
                           (AdbProxy_init None)))
     = [(CmdStr (lit "adb forward tcp:5555 tcp:8080"), true)]
  /\ result_of (tcp_forward (fun _ _ => Exited [] [] 0) 5555 8080
                  (AdbProxy_init None))
     = match result_of (__getattr__ (fun _ _ => Exited [] [] 0)
                          (lit "forward") (PStr (lit "tcp:5555 tcp:8080"))
                          (AdbProxy_init None)) with
       | Ok _ => Ok tt
       | Raise e => Raise e
       end.
Proof.
  apply (tcp_forward_5555_8080 (fun _ _ => Exited [] [] 0)
           (AdbProxy_init None)).
  reflexivity.
Defined.

(** ** The target identifier *)

Lemma perform_all_self (host : Host) (ops : list Op) (self : AdbProxy) :
  fst (perform_all host ops self) = self.
Proof.
  revert self. induction ops as [|op ops IH]; intros self; [reflexivity|].
  cbn [perform_all].
  pose proof (perform_self host op self) as Hop.
  destruct (perform host op self) as [self1 evs1]. cbn in Hop. subst self1.
  specialize (IH self).
  destruct (perform_all host ops self) as [self2 evs2]. exact IH.
Qed.

Lemma perform_all_spawned (host : Host) (ops : list Op) (self : AdbProxy) :
  spawned (snd (perform_all host ops self))
  = map (op_command (serial self)) ops.
Proof.
  revert self. induction ops as [|op ops IH]; intros self; [reflexivity|].
  cbn [perform_all map].
  pose proof (perform_self host op self) as Hself.
  pose proof (perform_spawned host op self) as Hop.
  destruct (perform host op self) as [self1 evs1]. cbn in Hself, Hop.
  subst self1. specialize (IH self).
  destruct (perform_all host ops self) as [self2 evs2]. cbn in IH |- *.
  now rewrite spawned_app, Hop, IH.
Qed.

Lemma op_command_shape (target : pystr) (op : Op) :
  (exists a,
     op_command target op
     = (CmdStr (lit "adb " ++ shell_target target ++ op_token op
                ++ lit " " ++ a), true))
  \/ (exists l,
        op_command target op
        = (CmdList ([lit "adb"] ++ argv_target target ++ [op_token op] ++ l),
           false)).
Proof.
  destruct op as [name [|a|[|t l]]|hp dp|prop];
    try (left; eexists; reflexivity).
  right. eexists. reflexivity.
Qed.

(** C9.  The identifier given to the constructor is the one the object
    holds after any sequence of operations, and each operation spawns
    exactly one process whose command carries that identifier: a shell
    string [adb -s "<target>" <token> <arg>] or a vector
    [adb, -s, <target>, <token>, ...] when it is non-empty, and
    [adb <token> <arg>] or [adb, <token>, ...] when it is empty. *)
Theorem target_identifier_is_invariant
  (host : Host) (target : pystr) (ops : list Op) :
  serial (AdbProxy_init (Some target)) = target
  /\ serial (AdbProxy_init None) = []
  /\ fst (perform_all host ops (AdbProxy_init (Some target)))
     = AdbProxy_init (Some target)
  /\ spawned (snd (perform_all host ops (AdbProxy_init (Some target))))
     = map (op_command target) ops
  /\ (forall op,
        In op ops ->
        (target <> [] ->
         (exists a,
            op_command target op
            = (CmdStr (lit "adb -s " ++ dquote ++ target ++ dquote ++ lit " "
                       ++ op_token op ++ lit " " ++ a), true))
         \/ (exists l,
               op_command target op
               = (CmdList (lit "adb" :: lit "-s" :: target :: op_token op :: l),
                  false)))
        /\ (target = [] ->
            (exists a,
               op_command target op
               = (CmdStr (lit "adb " ++ op_token op ++ lit " " ++ a), true))
            \/ (exists l,
                  op_command target op
                  = (CmdList (lit "adb" :: op_token op :: l), false)))).
Proof.
  split; [reflexivity|].
  split; [reflexivity|].
  split; [apply perform_all_self|].
  split; [apply perform_all_spawned|].
  intros op _. split.
  - intros Hne. destruct target as [|c target]; [contradiction|].
    destruct (op_command_shape (c :: target) op) as [[a Ha]|[l Hl]].
    + left. exists a. rewrite Ha. cbn [shell_target].
      change (lit "adb -s ") with (lit "adb " ++ lit "-s ").
      now rewrite <- !app_assoc.
    + right. exists l. rewrite Hl. reflexivity.
  - intros ->.
    destruct (op_command_shape [] op) as [[a Ha]|[l Hl]].
    + left. exists a. rewrite Ha. reflexivity.
    + right. exists l. rewrite Hl. reflexivity.
Qed.

(** Two calls on a proxy for [emulator-5554], one in each mode. *)
Example target_identifier_example (host : Host) :
  spawned
    (snd (perform_all host
            [OpCall (lit "shell") (PList [lit "ls"; lit "-l"]);
             OpTcpForward 5555 8080]
            (AdbProxy_init (Some (lit "emulator-5554")))))
  = [(CmdList [lit "adb"; lit "-s"; lit "emulator-5554"; lit "shell";
               lit "ls"; lit "-l"], false);
     (CmdStr (lit "adb -s " ++ dquote ++ lit "emulator-5554" ++ dquote
              ++ lit " forward tcp:5555 tcp:8080"), true)].
Proof. rewrite perform_all_spawned. reflexivity. Qed.

(** ** [strip] *)

Lemma lstrip_split (s : pystr) :
  exists l, s = l ++ lstrip s /\ forallb isspace l = true.
Proof.
  induction s as [|c s (l & Hs & Hl)]; [exists []; split; reflexivity|].
  cbn [lstrip]. destruct (isspace c) eqn:Hc.
  - exists (c :: l). cbn [forallb app]. rewrite Hc, Hl. split; [|reflexivity].
    now rewrite <- Hs.
  - exists []. split; reflexivity.
Qed.

Lemma lstrip_head (s : pystr) (c : codepoint) (rest : pystr) :
  lstrip s = c :: rest -> isspace c = false.
Proof.
  induction s as [|d s IH]; cbn [lstrip]; [discriminate|].
  destruct (isspace d) eqn:Hd; [exact IH|].
  intros Heq. injection Heq as <- _. exact Hd.
Qed.

Lemma lstrip_whitespace (s : pystr) :
  forallb isspace s = true -> lstrip s = [].
Proof.
  induction s as [|c s IH]; [reflexivity|].
  cbn [forallb lstrip]. intros H. apply andb_true_iff in H as [Hc Hs].
  rewrite Hc. exact (IH Hs).
Qed.

Lemma strip_whitespace (s : pystr) :
  forallb isspace s = true -> strip s = [].
Proof.
  intros H. unfold strip. now rewrite (lstrip_whitespace s H).
Qed.

Lemma forallb_rev {A} (f : A -> bool) (l : list A) :
  forallb f (rev l) = forallb f l.
Proof.
  induction l as [|a l IH]; [reflexivity|].
  cbn [rev forallb]. rewrite forallb_app, IH. cbn. rewrite andb_true_r.
  apply andb_comm.
Qed.

(** [strip] removes a run of whitespace at each end and stops at the first
    and last character that is not whitespace. *)
Lemma strip_spec (s : pystr) :
  exists l r,
    s = l ++ strip s ++ r
    /\ forallb isspace l = true
    /\ forallb isspace r = true
    /\ (forall c rest, strip s = c :: rest -> isspace c = false)
    /\ (forall c init, strip s = init ++ [c] -> isspace c = false).
Proof.
  destruct (lstrip_split s) as (l & Hs & Hl).
  destruct (lstrip_split (rev (lstrip s))) as (r' & Hr & Hr').
  assert (Hmid : lstrip s = strip s ++ rev r').
  { unfold strip, rstrip. rewrite <- rev_app_distr, <- Hr.
    symmetry. apply rev_involutive. }
  exists l, (rev r'). split; [|split; [|split; [|split]]].
  - now rewrite <- Hmid.
  - exact Hl.
  - now rewrite forallb_rev.
  - intros c rest Hc. rewrite Hc in Hmid. cbn in Hmid.
    exact (lstrip_head s c _ Hmid).
  - intros c init Hc. unfold strip, rstrip in Hc.
    apply (f_equal (@rev codepoint)) in Hc.
    rewrite rev_involutive, rev_app_distr in Hc. cbn in Hc.
    exact (lstrip_head _ c _ Hc).
Qed.

(** ** [getprop] *)

Lemma getprop_eq (host : Host) (prop_name : pystr) (self : AdbProxy) :
  getprop host prop_name self =
  let r := __getattr__ host (lit "shell")
             (PStr (lit "getprop " ++ prop_name)) self in
  (match result_of r with
   | Ok out =>
       match decode_utf8 out with
       | Ok text => Ok (strip text)
       | Raise e => Raise e
       end
   | Raise e => Raise e
   end, self_of r, events_of r).
Proof.
  unfold getprop, bind, lift, pure. cbv zeta.
  destruct (__getattr__ host _ _ self) as [[[out|e] s] evs]; cbn.
  - destruct (decode_utf8 out) as [text|e]; cbn; now rewrite app_nil_r.
  - reflexivity.
Qed.

(** C8.  [getprop(name)] spawns one process, the shell subcommand with the
    single string [getprop <name>], run by the shell; when that process
    exits with 0 and its stdout is UTF-8, the value returned is the
    decoded text without the whitespace at its two ends. *)
Theorem getprop_returns_stripped_text
  (host : Host) (prop_name : pystr) (self : AdbProxy)
  (out err : bytes) (text : pystr) :
  host (CmdStr (lit "adb " ++ shell_target (serial self) ++ lit "shell"
                ++ lit " " ++ lit "getprop " ++ prop_name)) true
  = Exited out err 0 ->
  decode_utf8 out = Ok text ->
  getprop host prop_name self
  = (let r := __getattr__ host (lit "shell")
                (PStr (lit "getprop " ++ prop_name)) self in
     (Ok (strip text), self_of r, events_of r))
  /\ spawned (events_of (getprop host prop_name self))
     = [(CmdStr (lit "adb " ++ shell_target (serial self) ++ lit "shell"
                 ++ lit " " ++ lit "getprop " ++ prop_name), true)]
  /\ result_of (__getattr__ host (lit "shell")
                  (PStr (lit "getprop " ++ prop_name)) self) = Ok out
  /\ result_of (getprop host prop_name self) = Ok (strip text)
  /\ exists l r,
       text = l ++ strip text ++ r
       /\ forallb isspace l = true
       /\ forallb isspace r = true
       /\ (forall c rest, strip text = c :: rest -> isspace c = false)
       /\ (forall c init, strip text = init ++ [c] -> isspace c = false).
Proof.
  intros Hrun Hdec.
  assert (Hcall : result_of (__getattr__ host (lit "shell")
                     (PStr (lit "getprop " ++ prop_name)) self) = Ok out).
  { rewrite adb_call_eq. cbv zeta. rewrite exec_cmd_eq.
    replace (op_command (serial self)
               (OpCall (lit "shell") (PStr (lit "getprop " ++ prop_name))))
      with (shell_command (serial self) (lit "shell")
              (lit "getprop " ++ prop_name)) by reflexivity.
    unfold shell_command. cbn [fst snd]. rewrite Hrun. reflexivity. }
  rewrite getprop_eq. cbv zeta. rewrite Hcall, Hdec.
  cbn [events_of result_of fst snd].
  split; [reflexivity|]. split; [|split; [reflexivity|split]].
  - rewrite dispatch_string_uses_shell. reflexivity.
  - reflexivity.
  - apply strip_spec.
Qed.

Lemma getprop_returns_stripped_text_witness :
  result_of
    (getprop (fun _ _ => Exited [x32; x33; x0a] [] 0)
       (lit "ro.build.version.sdk") (AdbProxy_init None))
  = Ok (lit "23")
  /\ spawned
       (events_of
          (getprop (fun _ _ => Exited [x32; x33; x0a] [] 0)
             (lit "ro.build.version.sdk") (AdbProxy_init None)))
     = [(CmdStr (lit "adb shell getprop ro.build.version.sdk"), true)].
Proof.
  pose proof (getprop_returns_stripped_text
                (fun _ _ => Exited [x32; x33; x0a] [] 0)
                (lit "ro.build.version.sdk") (AdbProxy_init None)
                [x32; x33; x0a] [] (lit "23" ++ [10%N])
                eq_refl eq_refl) as (_ & Hsp & _ & Hres & _).
  split; [exact Hres|exact Hsp].
Defined.

(** ** [list_occupied_adb_ports] *)

Lemma used_ports_loop_spec (decimal : DecimalTable)
  (clean_lines : list pystr) (used_ports : list Z) :
  used_ports_loop decimal clean_lines used_ports =
  match parse_ints decimal (map (fun tokens => nth 1 tokens [])
                      (filter is_entry
                         (map (split (lit " tcp:")) clean_lines))) with
  | Ok l => Ok (used_ports ++ l)
  | Raise e => Raise e
  end.
Proof.
  revert used_ports. unfold pystr, codepoint in *.
  induction clean_lines as [|line rest IH]; intros used_ports.
  - cbn. now rewrite app_nil_r.
  - cbn [used_ports_loop map filter]. unfold is_entry at 1.
    unfold pystr, codepoint in *.
    destruct (Nat.eqb _ 3); cbn [negb map parse_ints].
    + destruct (int decimal _) as [port|e]; [|reflexivity].
      rewrite IH.
      destruct (parse_ints decimal _) as [l|e]; [|reflexivity].
      now rewrite <- app_assoc.
    + apply IH.
Qed.

Lemma parse_forward_list_spec (decimal : DecimalTable) (out : bytes)
  (text : pystr) :
  decode_utf8 out = Ok text ->
  parse_forward_list decimal out = spec_ports decimal text.
Proof.
  intros Hdec. unfold parse_forward_list, spec_ports, entries.
  rewrite Hdec, used_ports_loop_spec.
  now destruct (parse_ints decimal _).
Qed.

Lemma list_occupied_adb_ports_eq (decimal : DecimalTable) (host : Host) :
  list_occupied_adb_ports decimal host =
  match host (CmdStr (lit "adb forward --list")) true with
  | SpawnFailed e =>
      (Raise (popen_exn e),
       [EvPopen (CmdStr (lit "adb forward --list")) true])
  | Exited out err ret =>
      (if Z.eqb ret 0 then parse_forward_list decimal out
       else Raise (ExAdbError
                     (mkAdbError (CmdStr (lit "adb forward --list"))
                        out err ret)),
       [EvPopen (CmdStr (lit "adb forward --list")) true;
        EvLogDebug (CmdStr (lit "adb forward --list")) out err ret])
  end.
Proof.
  unfold list_occupied_adb_ports. rewrite adb_call_eq. cbv zeta.
  rewrite exec_cmd_eq.
  change (fst (op_command (serial (AdbProxy_init None))
                 (OpCall (lit "forward") (PStr (lit "--list")))))
    with (CmdStr (lit "adb forward --list")).
  change (snd (op_command (serial (AdbProxy_init None))
                 (OpCall (lit "forward") (PStr (lit "--list")))))
    with true.
  destruct (host _ true) as [out err ret|]; [|reflexivity].
  destruct (Z.eqb ret 0); reflexivity.
Qed.

(** C5.  When [adb forward --list] exits with 0 and its output is UTF-8,
    the port lister returns what the specification describes: the decoded
    text is stripped and cut at the newlines, each line is cut at
    [ tcp:], the lines that do not give exactly three segments are
    dropped, and the segment at position 1 of each remaining line is read
    as an integer by [int], in the order of the lines.  On the sample
    output the result is [5037, 6000], and ports that are out of order or
    repeated stay as they are.  This holds for every decimal-digit table
    of the Unicode database. *)
Theorem list_occupied_adb_ports_parses_entries :
  (forall (decimal : DecimalTable) (host : Host) (out err : bytes)
          (text : pystr),
     host (CmdStr (lit "adb forward --list")) true = Exited out err 0 ->
     decode_utf8 out = Ok text ->
     fst (list_occupied_adb_ports decimal host)
     = parse_ints decimal
         (map (fun tokens => nth 1 tokens [])
            (filter (fun tokens => Nat.eqb (List.length tokens) 3)
               (map (split (lit " tcp:")) (split [10%N] (strip text))))))
  /\ (forall (decimal : DecimalTable) (host : Host) (err : bytes),
        host (CmdStr (lit "adb forward --list")) true
        = Exited sample_out err 0 ->
        fst (list_occupied_adb_ports decimal host) = Ok [5037%Z; 6000%Z])
  /\ (forall (decimal : DecimalTable) (host : Host) (err : bytes),
        host (CmdStr (lit "adb forward --list")) true
        = Exited unsorted_out err 0 ->
        fst (list_occupied_adb_ports decimal host)
        = Ok [6000%Z; 5037%Z; 6000%Z]).
Proof.
  split; [|split].
  - intros decimal host out err text Hrun Hdec.
    rewrite list_occupied_adb_ports_eq, Hrun. cbn [Z.eqb fst].
    rewrite (parse_forward_list_spec decimal out text Hdec). reflexivity.
  - intros decimal host err Hrun.
    rewrite list_occupied_adb_ports_eq, Hrun. cbn [Z.eqb fst].
    vm_compute. reflexivity.
  - intros decimal host err Hrun.
    rewrite list_occupied_adb_ports_eq, Hrun. cbn [Z.eqb fst].
    vm_compute. reflexivity.
Qed.

Lemma list_occupied_adb_ports_parses_entries_witness :
  fst (list_occupied_adb_ports arabic_indic
         (fun _ _ => Exited sample_out [] 0))
  = Ok [5037%Z; 6000%Z].
Proof.
  exact (proj1 (proj2 list_occupied_adb_ports_parses_entries)
           arabic_indic (fun _ _ => Exited sample_out [] 0) [] eq_refl).
Defined.

(** What [int] does at the edges of its domain: U+001C before the digits
    is not skipped although [strip()] would remove it, a no-break space
    is, and the digits of another script are read through the table. *)
Example int_edges :
  int arabic_indic (28%N :: lit "5037") = Raise ExValueError
  /\ int arabic_indic (160%N :: lit "5037") = Ok 5037%Z
  /\ int arabic_indic [1637%N; 1632%N; 1635%N; 1639%N] = Ok 5037%Z
  /\ int (fun _ => None) [1637%N; 1632%N; 1635%N; 1639%N]
     = Raise ExValueError
  /\ int arabic_indic (lit " -12 ") = Ok (-12)%Z
  /\ int arabic_indic (lit "- 12") = Raise ExValueError
  /\ int arabic_indic (lit "1 2") = Raise ExValueError
  /\ int arabic_indic (lit "+") = Raise ExValueError
  /\ int arabic_indic (lit "") = Raise ExValueError.
Proof. repeat split; reflexivity. Qed.

(** ASCII whitespace decodes to whitespace. *)
Lemma ascii_whitespace_decodes (out : bytes) :
  forallb byte_isspace out = true ->
  exists text, decode_utf8 out = Ok text /\ forallb isspace text = true.
Proof.
  intros Hall. exists (map Byte.to_N out). unfold decode_utf8.
  assert (H : utf8_points (map Byte.to_N out) = Some (map Byte.to_N out)
              /\ forallb isspace (map Byte.to_N out) = true).
  { induction out as [|b out IH]; [split; reflexivity|].
    cbn [forallb] in Hall. apply andb_true_iff in Hall as [Hb Hout].
    destruct (IH Hout) as [Hdec Hsp]. clear IH.
    cbn [map utf8_points forallb]. rewrite Hdec, Hsp.
    unfold byte_isspace, in_range in Hb.
    assert (Hlt : (Byte.to_N b <? 128)%N = true).
    { apply N.ltb_lt.
      apply orb_true_iff in Hb as [Hb|Hb].
      - apply andb_true_iff in Hb as [_ Hb]. apply N.leb_le in Hb. lia.
      - apply N.eqb_eq in Hb. lia. }
    rewrite Hlt. split; [reflexivity|].
    rewrite andb_true_r. unfold isspace, in_range.
    apply orb_true_iff in Hb as [Hb|Hb].
    - unfold in_range. rewrite Hb. reflexivity.
    - apply N.eqb_eq in Hb. rewrite Hb. reflexivity. }
  destruct H as [-> Hsp]. split; [reflexivity|exact Hsp].
Qed.

(** C6.  When [adb forward --list] exits with 0 and its output is empty or
    whitespace only, whether that is read on the bytes or on the decoded
    text, the port lister returns the empty list and raises nothing. *)
Theorem list_occupied_adb_ports_blank_output
  (decimal : DecimalTable) (host : Host) (out err : bytes) :
  host (CmdStr (lit "adb forward --list")) true = Exited out err 0 ->
  out = []
  \/ forallb byte_isspace out = true
  \/ (exists text, decode_utf8 out = Ok text /\ forallb isspace text = true) ->
  fst (list_occupied_adb_ports decimal host) = Ok [].
Proof.
  intros Hrun Hblank.
  assert (Htext : exists text,
             decode_utf8 out = Ok text /\ forallb isspace text = true).
  { destruct Hblank as [->|[Hb|Ht]].
    - exists []. split; reflexivity.
    - exact (ascii_whitespace_decodes out Hb).
    - exact Ht. }
  destruct Htext as (text & Hdec & Hsp).
  rewrite list_occupied_adb_ports_eq, Hrun. cbn [Z.eqb fst].
  unfold parse_forward_list. rewrite Hdec, (strip_whitespace text Hsp).
  reflexivity.
Qed.

Lemma list_occupied_adb_ports_blank_output_witness :
  fst (list_occupied_adb_ports arabic_indic
         (fun _ _ => Exited [x20; x0a; x09; x0a] [] 0))
  = Ok [].
Proof.
  apply (list_occupied_adb_ports_blank_output arabic_indic
           (fun _ _ => Exited [x20; x0a; x09; x0a] [] 0)
           [x20; x0a; x09; x0a] []).
  - reflexivity.
  - right. left. reflexivity.
Defined.

Lemma int_raises_value_error (decimal : DecimalTable) (s : pystr) (e : Exn) :
  int decimal s = Raise e -> e = ExValueError.
Proof.
  unfold int. cbv zeta.
  destruct (match skip_spaces (to_ascii_buffer decimal s) with
            | [] => _
            | c :: r => _
            end) as [sign str].
  destruct str as [|c str]; [now intros [= <-]|].
  destruct (is_digit c); [|now intros [= <-]].
  destruct (scan_digits (c :: str) 0) as [n rest].
  destruct (skip_spaces rest); [discriminate|now intros [= <-]].
Qed.

Lemma used_ports_loop_value_error (decimal : DecimalTable)
  (clean_lines : list pystr) (used_ports : list Z) (line a b c : pystr) :
  In line clean_lines ->
  split (lit " tcp:") line = [a; b; c] ->
  (forall n, int decimal b <> Ok n) ->
  used_ports_loop decimal clean_lines used_ports = Raise ExValueError.
Proof.
  intros Hin Htok Hbad. revert used_ports.
  induction clean_lines as [|h rest IH]; intros used_ports; [destruct Hin|].
  cbn [used_ports_loop].
  destruct (Nat.eqb (List.length (split (lit " tcp:") h)) 3) eqn:Hlen;
    cbn [negb].
  - destruct (int decimal (nth 1 (split (lit " tcp:") h) [])) as [port|e]
      eqn:Hint.
    + destruct Hin as [->|Hin].
      * rewrite Htok in Hint. cbn [nth] in Hint. now apply Hbad in Hint.
      * exact (IH Hin _).
    + now rewrite (int_raises_value_error decimal _ e Hint).
  - destruct Hin as [->|Hin].
    + rewrite Htok in Hlen. discriminate Hlen.
    + exact (IH Hin _).
Qed.

(** X2.  The port lister raises what the call raised: the exception of
    [subprocess] when the process does not come back with an exit code,
    the [AdbError] of [_exec_cmd] unchanged when [adb forward --list]
    exits with a non-zero code, and, on exit code 0 with UTF-8 output,
    [ValueError] as soon as some line of the stripped text has exactly
    three segments and a segment at position 1 that [int] does not
    accept, whatever the other lines hold. *)
Theorem list_occupied_adb_ports_failures :
  (forall (decimal : DecimalTable) (host : Host) (e : PopenError),
     host (CmdStr (lit "adb forward --list")) true = SpawnFailed e ->
     fst (list_occupied_adb_ports decimal host) = Raise (popen_exn e))
  /\ (forall (decimal : DecimalTable) (host : Host) (out err : bytes)
             (ret : Z),
        host (CmdStr (lit "adb forward --list")) true = Exited out err ret ->
        ret <> 0%Z ->
        fst (list_occupied_adb_ports decimal host)
        = Raise (ExAdbError
                   (mkAdbError (CmdStr (lit "adb forward --list"))
                      out err ret)))
  /\ (forall (decimal : DecimalTable) (host : Host) (out err : bytes)
             (text line a b c : pystr),
        host (CmdStr (lit "adb forward --list")) true = Exited out err 0 ->
        decode_utf8 out = Ok text ->
        In line (split [10%N] (strip text)) ->
        split (lit " tcp:") line = [a; b; c] ->
        (forall n, int decimal b <> Ok n) ->
        fst (list_occupied_adb_ports decimal host) = Raise ExValueError).
Proof.
  split; [|split].
  - intros decimal host e Hrun.
    rewrite list_occupied_adb_ports_eq, Hrun. reflexivity.
  - intros decimal host out err ret Hrun Hret.
    rewrite list_occupied_adb_ports_eq, Hrun.
    destruct (Z.eqb_spec ret 0) as [Hz|_]; [contradiction|reflexivity].
  - intros decimal host out err text line a b c Hrun Hdec Hin Htok Hbad.
    rewrite list_occupied_adb_ports_eq, Hrun. cbn [Z.eqb fst].
    unfold parse_forward_list. rewrite Hdec.
    exact (used_ports_loop_value_error decimal _ [] line a b c Hin Htok Hbad).
Qed.

Lemma list_occupied_adb_ports_failures_witness :
  fst (list_occupied_adb_ports arabic_indic
         (fun _ _ =>
            Exited (blit "emulator-5554 tcp:5037 tcp:5555" ++ [x0a]
                    ++ blit "emulator-5556 tcp:any tcp:7000") [] 0))
  = Raise ExValueError.
Proof.
  apply (proj2 (proj2 list_occupied_adb_ports_failures) arabic_indic
           (fun _ _ =>
              Exited (blit "emulator-5554 tcp:5037 tcp:5555" ++ [x0a]
                      ++ blit "emulator-5556 tcp:any tcp:7000") [] 0)
           (blit "emulator-5554 tcp:5037 tcp:5555" ++ [x0a]
            ++ blit "emulator-5556 tcp:any tcp:7000") []
           (lit "emulator-5554 tcp:5037 tcp:5555" ++ [10%N]
            ++ lit "emulator-5556 tcp:any tcp:7000")
           (lit "emulator-5556 tcp:any tcp:7000")
           (lit "emulator-5556") (lit "any") (lit "7000")).
  - reflexivity.
  - reflexivity.
  - right. left. reflexivity.
  - reflexivity.
  - intros n. discriminate.
Defined.

(** ** More on [strip], [int] and [split] *)

Lemma lstrip_app_ws (l s : pystr) :
  forallb isspace l = true -> lstrip (l ++ s) = lstrip s.
Proof.
  induction l as [|c l IH]; [reflexivity|].
  cbn [forallb app lstrip]. intros H. apply andb_true_iff in H as [Hc Hl].
  rewrite Hc. exact (IH Hl).
Qed.

Lemma lstrip_fixed (s : pystr) :
  (forall c rest, s = c :: rest -> isspace c = false) -> lstrip s = s.
Proof.
  destruct s as [|c rest]; [reflexivity|].
  intros H. cbn [lstrip]. now rewrite (H c rest eq_refl).
Qed.

(** [strip] gives back exactly the text between two runs of whitespace. *)
Lemma strip_exact (l body r : pystr) :
  forallb isspace l = true ->
  forallb isspace r = true ->
  (forall c rest, body = c :: rest -> isspace c = false) ->
  (forall c init, body = init ++ [c] -> isspace c = false) ->
  strip (l ++ body ++ r) = body.
Proof.
  intros Hl Hr Hhd Hlast. unfold strip.
  rewrite (lstrip_app_ws l _ Hl).
  destruct body as [|c rest].
  - cbn [app]. now rewrite (lstrip_whitespace r Hr).
  - rewrite lstrip_fixed.
    2:{ intros d rest'. cbn [app]. intros [= <- _]. exact (Hhd c rest eq_refl). }
    unfold rstrip. rewrite rev_app_distr.
    rewrite lstrip_app_ws by now rewrite forallb_rev.
    rewrite lstrip_fixed.
    + apply rev_involutive.
    + intros d rest' Hrev.
      apply (f_equal (@rev codepoint)) in Hrev.
      rewrite rev_involutive in Hrev. cbn [rev] in Hrev.
      exact (Hlast d _ Hrev).
Qed.

Lemma strip_idempotent (s : pystr) : strip (strip s) = strip s.
Proof.
  destruct (strip_spec s) as (l & r & _ & _ & _ & Hhd & Hlast).
  pose proof (strip_exact [] (strip s) [] eq_refl eq_refl Hhd Hlast) as H.
  cbn [app] in H. now rewrite app_nil_r in H.
Qed.


Lemma scan_digits_acc (d : Decimal.uint) (acc : positive) (rest : pystr) :
  match rest with
  | c :: _ => is_digit c = false
  | [] => True
  end ->
  scan_digits (digits d ++ rest) (Zpos acc)
  = (Zpos (Pos.of_uint_acc d acc), rest).
Proof.
  intros Hrest. revert acc. induction d; intros acc;
    [destruct rest as [|c rest]; [reflexivity|]; cbn; now rewrite Hrest| ..];
    cbn [Pos.of_uint_acc]; rewrite <- IHd; unfold digits;
    cbn [NilEmpty.string_of_uint lit list_ascii_of_string map app scan_digits];
    (match goal with |- context [is_digit ?c] =>
       change (is_digit c) with true end);
    cbv iota; f_equal;
    (match goal with |- context [Z.of_N ?e] =>
       let v := eval vm_compute in (Z.of_N e) in change (Z.of_N e) with v end);
    lia.
Qed.

Lemma scan_digits_zero (d : Decimal.uint) (rest : pystr) :
  match rest with
  | c :: _ => is_digit c = false
  | [] => True
  end ->
  scan_digits (digits d ++ rest) 0 = (Z.of_N (Pos.of_uint d), rest).
Proof.
  intros Hrest.
  induction d;
    [destruct rest as [|c rest]; [reflexivity|]; cbn; now rewrite Hrest
    |exact IHd|..];
    cbn [Pos.of_uint Z.of_N]; rewrite <- (scan_digits_acc _ _ rest Hrest);
    reflexivity.
Qed.

Lemma digits_are_digits (d : Decimal.uint) :
  forallb (in_range 48 57) (digits d) = true.
Proof.
  induction d; [reflexivity|..]; exact IHd.
Qed.

Lemma digit_not_space (c : codepoint) :
  in_range 48 57 c = true -> isspace c = false.
Proof.
  unfold in_range, isspace, in_range. intros H.
  apply andb_true_iff in H as [H1 H2].
  apply N.leb_le in H1. apply N.leb_le in H2.
  repeat (apply orb_false_iff; split);
    try (apply andb_false_iff);
    try (apply N.eqb_neq; lia).
  all: try (left; apply N.leb_gt; lia); try (right; apply N.leb_gt; lia).
Qed.


Lemma forallb_head {A} (P : A -> bool) (s : list A) (c : A) (rest : list A) :
  forallb P s = true -> s = c :: rest -> P c = true.
Proof.
  intros H ->. cbn in H. now apply andb_true_iff in H as [H _].
Qed.

Lemma forallb_last {A} (P : A -> bool) (s : list A) (c : A) (init : list A) :
  forallb P s = true -> s = init ++ [c] -> P c = true.
Proof.
  intros H ->. rewrite forallb_app in H. cbn in H.
  apply andb_true_iff in H as [_ H]. now rewrite andb_true_r in H.
Qed.

Lemma strip_fixed (s : pystr) :
  (forall c rest, s = c :: rest -> isspace c = false) ->
  (forall c init, s = init ++ [c] -> isspace c = false) ->
  strip s = s.
Proof.
  intros Hhd Hlast.
  pose proof (strip_exact [] s [] eq_refl eq_refl Hhd Hlast) as H.
  cbn [app] in H. now rewrite app_nil_r in H.
Qed.

Lemma fmt_d_pos (p : positive) : fmt_d (Zpos p) = digits (Pos.to_uint p).
Proof.
  unfold fmt_d, digits. cbn [Z.to_int NilZero.string_of_int].
  pose proof (DecimalPos.Unsigned.to_uint_nonnil p) as Hnn.
  destruct (Pos.to_uint p); [contradiction|..]; reflexivity.
Qed.

Lemma fmt_d_neg (p : positive) :
  fmt_d (Zneg p) = 45%N :: digits (Pos.to_uint p).
Proof.
  unfold fmt_d, digits. cbn [Z.to_int NilZero.string_of_int].
  pose proof (DecimalPos.Unsigned.to_uint_nonnil p) as Hnn.
  destruct (Pos.to_uint p); [contradiction|..]; reflexivity.
Qed.

Lemma is_digit_facts (c : codepoint) :
  is_digit c = true ->
  Py_ISSPACE c = false /\ (c =? 43)%N = false /\ (c =? 45)%N = false
  /\ (c <=? 127)%N = true.
Proof.
  unfold is_digit, Py_ISSPACE, in_range. intros H.
  apply andb_true_iff in H as [H1 H2].
  apply N.leb_le in H1. apply N.leb_le in H2.
  repeat split.
  - apply orb_false_iff. split.
    + apply andb_false_iff. right. apply N.leb_gt. lia.
    + apply N.eqb_neq. lia.
  - apply N.eqb_neq. lia.
  - apply N.eqb_neq. lia.
  - apply N.leb_le. lia.
Qed.

Lemma Py_ISSPACE_not_digit (c : codepoint) :
  Py_ISSPACE c = true -> is_digit c = false.
Proof.
  intros Hc. destruct (is_digit c) eqn:Hd; [|reflexivity].
  destruct (is_digit_facts c Hd) as [Hsp _]. congruence.
Qed.

Lemma skip_spaces_app (l s : pystr) :
  forallb Py_ISSPACE l = true -> skip_spaces (l ++ s) = skip_spaces s.
Proof.
  induction l as [|c l IH]; [reflexivity|].
  cbn [forallb app skip_spaces]. intros H.
  apply andb_true_iff in H as [Hc Hl]. rewrite Hc. exact (IH Hl).
Qed.

Lemma skip_spaces_all (l : pystr) :
  forallb Py_ISSPACE l = true -> skip_spaces l = [].
Proof.
  intros H. rewrite <- (app_nil_r l). now rewrite skip_spaces_app.
Qed.

Lemma spaces_then_no_digit (r : pystr) :
  forallb Py_ISSPACE r = true ->
  match r with
  | c :: _ => is_digit c = false
  | [] => True
  end.
Proof.
  destruct r as [|c r]; [easy|]. cbn [forallb]. intros H.
  apply andb_true_iff in H as [Hc _]. now apply Py_ISSPACE_not_digit.
Qed.

Lemma digits_head (d : Decimal.uint) :
  d <> Decimal.Nil ->
  exists c ds, digits d = c :: ds /\ is_digit c = true.
Proof.
  intros Hd. pose proof (digits_are_digits d) as Hall.
  destruct d; [contradiction|..]; eexists; eexists; split;
    try reflexivity; reflexivity.
Qed.

(** The number read from a buffer that holds blanks, the digits of [d]
    and blanks. *)
Lemma int_buffer_digits (decimal : DecimalTable) (s l r : pystr)
  (d : Decimal.uint) :
  to_ascii_buffer decimal s = l ++ digits d ++ r ->
  forallb Py_ISSPACE l = true ->
  forallb Py_ISSPACE r = true ->
  d <> Decimal.Nil ->
  int decimal s = Ok (Z.of_N (Pos.of_uint d)).
Proof.
  intros Hbuf Hl Hr Hd. unfold int. cbv zeta.
  rewrite Hbuf, (skip_spaces_app l _ Hl).
  destruct (digits_head d Hd) as (c & ds & Hds & Hc).
  destruct (is_digit_facts c Hc) as (Hsp & Hplus & Hminus & _).
  pose proof (scan_digits_zero d r (spaces_then_no_digit r Hr)) as Hscan.
  rewrite Hds in Hscan |- *. cbn [app skip_spaces] in Hscan |- *.
  rewrite Hsp, Hplus, Hminus, Hc. cbn [app] in Hscan. rewrite Hscan.
  rewrite (skip_spaces_all r Hr). f_equal. apply Z.mul_1_l.
Qed.

Lemma int_buffer_minus_digits (decimal : DecimalTable) (s l r : pystr)
  (d : Decimal.uint) :
  to_ascii_buffer decimal s = l ++ (45%N :: digits d) ++ r ->
  forallb Py_ISSPACE l = true ->
  forallb Py_ISSPACE r = true ->
  d <> Decimal.Nil ->
  int decimal s = Ok (- Z.of_N (Pos.of_uint d))%Z.
Proof.
  intros Hbuf Hl Hr Hd. unfold int. cbv zeta.
  rewrite Hbuf, (skip_spaces_app l _ Hl).
  destruct (digits_head d Hd) as (c & ds & Hds & Hc).
  pose proof (scan_digits_zero d r (spaces_then_no_digit r Hr)) as Hscan.
  rewrite Hds in Hscan |- *. cbn [app skip_spaces] in Hscan |- *.
  change (Py_ISSPACE 45%N) with false. cbn [N.eqb Pos.eqb]. cbv iota.
  unfold pystr, codepoint in *.
  rewrite Hc, Hscan, (skip_spaces_all r Hr). f_equal; lia.
Qed.

Lemma int_isspace_squash (c : codepoint) :
  int_isspace c = true ->
  Py_ISSPACE (squash c) = true
  /\ ((c <=? 127)%N = true \/ isspace c = true).
Proof.
  unfold int_isspace, squash. intros H.
  apply andb_true_iff in H as [Hsp Hno].
  destruct (c <=? 127)%N eqn:Hle; [|split; [reflexivity|now right]].
  split; [|now left].
  apply N.leb_le in Hle. apply negb_true_iff in Hno.
  unfold isspace, Py_ISSPACE, in_range in *.
  repeat (apply orb_true_iff in Hsp as [Hsp|Hsp]);
    try (apply N.eqb_eq in Hsp; lia);
    try (apply andb_true_iff in Hsp as [Hlo Hhi];
         apply N.leb_le in Hlo; apply N.leb_le in Hhi).
  - rewrite (proj2 (N.leb_le 9 c) Hlo), (proj2 (N.leb_le c 13) Hhi).
    reflexivity.
  - apply andb_false_iff in Hno as [Hno|Hno]; apply N.leb_gt in Hno;
      [lia|].
    assert (c = 32%N) by lia. subst c. reflexivity.
  - lia.
Qed.

Lemma to_ascii_buffer_app (decimal : DecimalTable) (s t : pystr) :
  forallb (fun c => (c <=? 127)%N || isspace c) s = true ->
  to_ascii_buffer decimal (s ++ t)
  = map squash s ++ to_ascii_buffer decimal t.
Proof.
  induction s as [|c s IH]; [reflexivity|].
  cbn [forallb app to_ascii_buffer map]. intros H.
  apply andb_true_iff in H as [Hc Hs]. rewrite (IH Hs). unfold squash.
  destruct (c <=? 127)%N; [reflexivity|].
  cbn [orb] in Hc. now rewrite Hc.
Qed.

Lemma spaces_buffer (l : pystr) :
  forallb int_isspace l = true ->
  forallb (fun c => (c <=? 127)%N || isspace c) l = true
  /\ forallb Py_ISSPACE (map squash l) = true.
Proof.
  induction l as [|c l IH]; [split; reflexivity|].
  cbn [forallb map]. intros H. apply andb_true_iff in H as [Hc Hl].
  destruct (IH Hl) as [H1 H2].
  destruct (int_isspace_squash c Hc) as [Hsq Hor].
  rewrite H1, H2, Hsq. split; [|reflexivity].
  rewrite andb_true_r. destruct Hor as [->| ->]; [reflexivity|].
  apply orb_true_r.
Qed.

Lemma ascii_buffer (s : pystr) :
  forallb (fun c => (c <=? 127)%N) s = true ->
  forallb (fun c => (c <=? 127)%N || isspace c) s = true
  /\ map squash s = s.
Proof.
  induction s as [|c s IH]; [split; reflexivity|].
  cbn [forallb map]. intros H. apply andb_true_iff in H as [Hc Hs].
  destruct (IH Hs) as [H1 H2]. unfold squash at 1.
  rewrite H1, H2, Hc. split; reflexivity.
Qed.

Lemma fmt_d_ascii (n : Z) : forallb (fun c => (c <=? 127)%N) (fmt_d n) = true.
Proof.
  assert (Hd : forall d, forallb (fun c => (c <=? 127)%N) (digits d) = true).
  { intros d. pose proof (digits_are_digits d) as H.
    rewrite forallb_forall in H |- *. intros c Hc.
    now destruct (is_digit_facts c (H c Hc)) as (_ & _ & _ & Hle). }
  destruct n as [|p|p].
  - reflexivity.
  - rewrite fmt_d_pos. apply Hd.
  - rewrite fmt_d_neg. cbn [forallb]. now rewrite Hd.
Qed.

(** The buffer of a text made of blanks, the digits of ['%d'] and
    blanks. *)
Lemma fmt_d_buffer (decimal : DecimalTable) (n : Z) (l r : pystr) :
  forallb int_isspace l = true ->
  forallb int_isspace r = true ->
  to_ascii_buffer decimal (l ++ fmt_d n ++ r)
  = map squash l ++ fmt_d n ++ map squash r.
Proof.
  intros Hl Hr.
  destruct (spaces_buffer l Hl) as [Hl1 _].
  destruct (spaces_buffer r Hr) as [Hr1 _].
  destruct (ascii_buffer (fmt_d n) (fmt_d_ascii n)) as [Hn1 Hn2].
  rewrite (to_ascii_buffer_app decimal l _ Hl1).
  rewrite (to_ascii_buffer_app decimal (fmt_d n) _ Hn1), Hn2.
  rewrite <- (app_nil_r r) at 1.
  rewrite (to_ascii_buffer_app decimal r [] Hr1). cbn [to_ascii_buffer].
  now rewrite app_nil_r.
Qed.

Lemma int_fmt_d_buffer (decimal : DecimalTable) (s l r : pystr) (n : Z) :
  to_ascii_buffer decimal s = l ++ fmt_d n ++ r ->
  forallb Py_ISSPACE l = true ->
  forallb Py_ISSPACE r = true ->
  int decimal s = Ok n.
Proof.
  intros Hbuf Hl Hr. destruct n as [|p|p].
  - apply (int_buffer_digits decimal s l r (Decimal.D0 Decimal.Nil));
      [exact Hbuf|exact Hl|exact Hr|discriminate].
  - rewrite fmt_d_pos in Hbuf.
    rewrite (int_buffer_digits decimal s l r _ Hbuf Hl Hr
               (DecimalPos.Unsigned.to_uint_nonnil p)).
    now rewrite DecimalPos.Unsigned.of_to.
  - rewrite fmt_d_neg in Hbuf.
    rewrite (int_buffer_minus_digits decimal s l r _ Hbuf Hl Hr
               (DecimalPos.Unsigned.to_uint_nonnil p)).
    now rewrite DecimalPos.Unsigned.of_to.
Qed.

Lemma int_fmt_d (decimal : DecimalTable) (n : Z) :
  int decimal (fmt_d n) = Ok n.
Proof.
  apply (int_fmt_d_buffer decimal (fmt_d n) [] [] n); try reflexivity.
  pose proof (fmt_d_buffer decimal n [] [] eq_refl eq_refl) as H.
  cbn [app map] in H |- *. rewrite !app_nil_r in H. rewrite app_nil_r.
  exact H.
Qed.

Lemma join_cons (sep p q : pystr) (rest : list pystr) :
  join sep (p :: q :: rest) = p ++ sep ++ join sep (q :: rest).
Proof. reflexivity. Qed.

Lemma starts_with_app (sep t : pystr) : starts_with sep (sep ++ t) = true.
Proof.
  induction sep as [|a sep IH]; [reflexivity|].
  cbn [app starts_with]. now rewrite N.eqb_refl, IH.
Qed.

Lemma starts_with_prefix (p s : pystr) :
  starts_with p s = true -> s = p ++ skipn (List.length p) s.
Proof.
  revert s. induction p as [|a p IH]; intros s; [reflexivity|].
  destruct s as [|b s]; cbn [starts_with]; [discriminate|].
  intros H. apply andb_true_iff in H as [Hab Hp].
  apply N.eqb_eq in Hab. subst b. cbn [List.length skipn app].
  now rewrite <- (IH s Hp).
Qed.

Lemma split_from_skip (sep u cur t : pystr) :
  split_from sep (List.length u) cur (u ++ t) = split_from sep 0 cur t.
Proof.
  induction u as [|c u IH]; [reflexivity|].
  cbn [List.length app split_from]. exact IH.
Qed.

(** Scanning over characters that cannot start a separator. *)
Lemma split_from_scan (a : codepoint) (sep' s cur t : pystr) :
  forallb (fun c => negb (N.eqb a c)) s = true ->
  split_from (a :: sep') 0 cur (s ++ t)
  = split_from (a :: sep') 0 (rev s ++ cur) t.
Proof.
  revert cur. induction s as [|c s IH]; intros cur; [reflexivity|].
  cbn [forallb]. intros H. apply andb_true_iff in H as [Hc Hs].
  apply negb_true_iff in Hc.
  cbn [app split_from starts_with]. rewrite Hc. cbn [andb].
  rewrite (IH (c :: cur) Hs). cbn [rev]. now rewrite <- app_assoc.
Qed.

(** Passing over one separator closes the current segment. *)
Lemma split_from_sep (a : codepoint) (sep' cur t : pystr) :
  split_from (a :: sep') 0 cur ((a :: sep') ++ t)
  = rev cur :: split_from (a :: sep') 0 [] t.
Proof.
  cbn [app split_from].
  change (a :: sep' ++ t) with ((a :: sep') ++ t).
  rewrite starts_with_app.
  replace (List.length (a :: sep') - 1) with (List.length sep')
    by (cbn [List.length]; lia).
  now rewrite split_from_skip.
Qed.

Lemma split_from_join (a : codepoint) (sep' : pystr) (parts : list pystr)
  (p cur : pystr) :
  Forall (fun q => forallb (fun c => negb (N.eqb a c)) q = true) (p :: parts) ->
  split_from (a :: sep') 0 cur (join (a :: sep') (p :: parts))
  = (rev cur ++ p) :: parts.
Proof.
  revert p cur. induction parts as [|q parts IH]; intros p cur Hall.
  - cbn [join]. rewrite <- (app_nil_r p) at 1.
    rewrite split_from_scan by now inversion Hall.
    cbn [split_from]. now rewrite rev_app_distr, rev_involutive.
  - rewrite join_cons.
    rewrite split_from_scan by now inversion Hall.
    rewrite split_from_sep, rev_app_distr, rev_involutive.
    f_equal. rewrite IH by now inversion Hall. reflexivity.
Qed.

(** [sep.join(parts).split(sep) == parts] when no part holds the first
    character of [sep]. *)
Lemma split_join (a : codepoint) (sep' : pystr) (parts : list pystr) :
  parts <> [] ->
  Forall (fun q => forallb (fun c => negb (N.eqb a c)) q = true) parts ->
  split (a :: sep') (join (a :: sep') parts) = parts.
Proof.
  destruct parts as [|p parts]; [contradiction|]. intros _ Hall.
  unfold split. now rewrite split_from_join.
Qed.

Lemma split_from_nonempty (sep : pystr) (k : nat) (cur s : pystr) :
  split_from sep k cur s <> [].
Proof.
  revert k cur. induction s as [|c s IH]; intros k cur; cbn [split_from].
  - discriminate.
  - destruct k; [|apply IH].
    destruct (starts_with sep (c :: s)); [discriminate|apply IH].
Qed.

Lemma join_split_from (sep : pystr) (s : pystr) (k : nat) (cur : pystr) :
  sep <> [] ->
  join sep (split_from sep k cur s) = rev cur ++ skipn k s.
Proof.
  intros Hsep. revert k cur.
  induction s as [|c s IH]; intros k cur.
  - cbn [split_from join]. rewrite skipn_nil. now rewrite app_nil_r.
  - cbn [split_from]. destruct k as [|k].
    + destruct (starts_with sep (c :: s)) eqn:Hst.
      * pose proof (split_from_nonempty sep (List.length sep - 1) [] s) as Hne.
        destruct (split_from sep (List.length sep - 1) [] s) as [|x xs] eqn:Hx;
          [contradiction|].
        rewrite join_cons, <- Hx, IH. cbn [rev app skipn].
        apply starts_with_prefix in Hst.
        destruct sep as [|a sep']; [contradiction|].
        replace (List.length (a :: sep') - 1) with (List.length sep')
          by (cbn [List.length]; lia).
        cbn [List.length skipn app] in Hst |- *.
        injection Hst as <- Hs. now rewrite <- Hs.
      * rewrite IH. cbn [rev skipn]. now rewrite <- app_assoc.
    + rewrite IH. reflexivity.
Qed.

(** [sep.join(s.split(sep)) == s]. *)
Lemma join_split (sep s : pystr) : sep <> [] -> join sep (split sep s) = s.
Proof.
  intros Hsep. unfold split. now rewrite join_split_from.
Qed.




Lemma plain_differs (a c : codepoint) :
  isspace a = true -> plain c = true -> negb (N.eqb a c) = true.
Proof.
  intros Ha Hc. apply negb_true_iff. apply N.eqb_neq. intros ->.
  unfold plain in Hc. rewrite Ha in Hc. discriminate Hc.
Qed.

Lemma plain_without (a : codepoint) (s : pystr) :
  isspace a = true -> forallb plain s = true ->
  forallb (fun c => negb (N.eqb a c)) s = true.
Proof.
  intros Ha Hs. rewrite forallb_forall in Hs |- *.
  intros c Hc. exact (plain_differs a c Ha (Hs c Hc)).
Qed.

Lemma digits_plain (d : Decimal.uint) : forallb plain (digits d) = true.
Proof.
  pose proof (digits_are_digits d) as H.
  rewrite forallb_forall in H |- *. intros c Hc.
  unfold plain. now rewrite (digit_not_space c (H c Hc)).
Qed.

Lemma fmt_d_word (n : Z) : word (fmt_d n) = true.
Proof.
  unfold word. destruct n as [|p|p].
  - reflexivity.
  - rewrite fmt_d_pos, digits_plain, andb_true_r.
    pose proof (DecimalPos.Unsigned.to_uint_nonnil p) as Hnn.
    destruct (Pos.to_uint p); [contradiction|..]; reflexivity.
  - rewrite fmt_d_neg. cbn [nonempty forallb]. now rewrite digits_plain.
Qed.

Lemma word_plain (s : pystr) : word s = true -> forallb plain s = true.
Proof. unfold word. intros H. now apply andb_true_iff in H. Qed.

Lemma forallb_skipn {A} (P : A -> bool) (n : nat) (s : list A) :
  forallb P s = true -> forallb P (skipn n s) = true.
Proof.
  revert s. induction n as [|n IH]; intros s; [easy|].
  destruct s as [|c s]; [easy|]. cbn [forallb skipn]. intros H.
  apply andb_true_iff in H as [_ H]. exact (IH s H).
Qed.

(** The segments of one line of the listing. *)
Lemma forward_line_tokens (f : Forward) :
  well_formed f = true ->
  split (lit " tcp:") (forward_line f)
  = if remote_is_tcp f
    then [fw_serial f; fmt_d (fw_host_port f); skipn 4 (fw_remote f)]
    else [fw_serial f; fmt_d (fw_host_port f) ++ lit " " ++ fw_remote f].
Proof.
  unfold well_formed. intros Hwf. apply andb_true_iff in Hwf as [Hs Hr].
  apply word_plain in Hs. apply word_plain in Hr.
  pose proof (word_plain _ (fmt_d_word (fw_host_port f))) as Hp.
  assert (Hsp : isspace 32%N = true) by reflexivity.
  unfold remote_is_tcp, forward_line.
  destruct (starts_with (lit "tcp:") (fw_remote f)) eqn:Htcp.
  - apply starts_with_prefix in Htcp.
    change (List.length (lit "tcp:")) with 4 in Htcp.
    rewrite Htcp at 1.
    change (fw_serial f ++ lit " tcp:" ++ fmt_d (fw_host_port f) ++ lit " "
            ++ lit "tcp:" ++ skipn 4 (fw_remote f))
      with (join (32%N :: lit "tcp:")
              [fw_serial f; fmt_d (fw_host_port f); skipn 4 (fw_remote f)]).
    change (lit " tcp:") with (32%N :: lit "tcp:").
    apply split_join; [discriminate|].
    repeat constructor; apply plain_without; try exact Hsp; try assumption.
    now apply forallb_skipn.
  - unfold split. change (lit " tcp:") with (32%N :: lit "tcp:").
    rewrite split_from_scan by now apply plain_without.
    rewrite split_from_sep. rewrite app_nil_r, rev_involutive. f_equal.
    rewrite split_from_scan by now apply plain_without.
    change (lit " " ++ fw_remote f) with (32%N :: fw_remote f).
    cbn [split_from starts_with]. rewrite N.eqb_refl, Htcp. cbn [andb].
    rewrite <- (app_nil_r (fw_remote f)) at 1.
    rewrite split_from_scan by now apply plain_without.
    cbn [split_from]. rewrite rev_app_distr, rev_involutive.
    cbn [rev]. rewrite !rev_app_distr, rev_involutive. cbn [rev app].
    now rewrite <- app_assoc.
Qed.

Lemma forward_lines_loop (decimal : DecimalTable) (fs : list Forward)
  (used_ports : list Z) :
  forallb well_formed fs = true ->
  used_ports_loop decimal (map forward_line fs) used_ports
  = Ok (used_ports ++ map fw_host_port (filter remote_is_tcp fs)).
Proof.
  revert used_ports. induction fs as [|f fs IH]; intros used_ports Hwf.
  - cbn. now rewrite app_nil_r.
  - cbn [forallb] in Hwf. apply andb_true_iff in Hwf as [Hf Hfs].
    cbn [map used_ports_loop filter].
    rewrite (forward_line_tokens f Hf).
    destruct (remote_is_tcp f).
    + cbn [List.length Nat.eqb negb nth]. rewrite int_fmt_d.
      rewrite (IH _ Hfs). cbn [map]. now rewrite <- app_assoc.
    + cbn [List.length Nat.eqb negb]. exact (IH _ Hfs).
Qed.

Lemma forward_line_no_newline (f : Forward) :
  well_formed f = true ->
  forallb (fun c => negb (N.eqb 10 c)) (forward_line f) = true.
Proof.
  unfold well_formed. intros Hwf. apply andb_true_iff in Hwf as [Hs Hr].
  apply word_plain in Hs. apply word_plain in Hr.
  pose proof (word_plain _ (fmt_d_word (fw_host_port f))) as Hp.
  assert (Hnl : isspace 10%N = true) by reflexivity.
  unfold forward_line. rewrite !forallb_app.
  repeat (apply andb_true_iff; split);
    first [reflexivity | now apply plain_without].
Qed.

Lemma word_head (s : pystr) :
  word s = true -> exists c rest, s = c :: rest /\ isspace c = false.
Proof.
  unfold word. destruct s as [|c rest]; [discriminate|].
  cbn [nonempty forallb andb]. intros H. apply andb_true_iff in H as [Hc _].
  exists c, rest. split; [reflexivity|]. now apply negb_true_iff.
Qed.

Lemma word_last (s : pystr) :
  word s = true -> exists init c, s = init ++ [c] /\ isspace c = false.
Proof.
  unfold word. intros H. apply andb_true_iff in H as [Hne Hall].
  destruct (exists_last (l := s)) as (init & c & ->).
  { intros ->. discriminate Hne. }
  exists init, c. split; [reflexivity|].
  rewrite forallb_app in Hall. apply andb_true_iff in Hall as [_ Hc].
  cbn in Hc. rewrite andb_true_r in Hc. now apply negb_true_iff.
Qed.

Lemma join_starts (sep p : pystr) (rest : list pystr) :
  exists t, join sep (p :: rest) = p ++ t.
Proof.
  destruct rest as [|q rest].
  - exists []. cbn. now rewrite app_nil_r.
  - eexists. apply join_cons.
Qed.

Lemma join_ends (sep : pystr) (parts : list pystr) (p : pystr) :
  exists pre, join sep (parts ++ [p]) = pre ++ p.
Proof.
  induction parts as [|q parts (pre & IH)].
  - exists []. reflexivity.
  - destruct (parts ++ [p]) as [|x xs] eqn:Hx.
    + now destruct parts.
    + cbn [app]. rewrite Hx, join_cons, IH.
      exists (q ++ sep ++ pre). now rewrite <- !app_assoc.
Qed.

Lemma listing_head (fs : list Forward) (c : codepoint) (rest : pystr) :
  forallb well_formed fs = true ->
  join [10%N] (map forward_line fs) = c :: rest -> isspace c = false.
Proof.
  destruct fs as [|f fs]; [discriminate|].
  cbn [forallb map]. intros Hwf. apply andb_true_iff in Hwf as [Hf _].
  unfold well_formed in Hf. apply andb_true_iff in Hf as [Hs _].
  destruct (word_head _ Hs) as (c0 & rest0 & Hser & Hc0).
  destruct (join_starts [10%N] (forward_line f) (map forward_line fs))
    as (t & ->).
  unfold forward_line. rewrite Hser. cbn [app]. intros [= <- _]. exact Hc0.
Qed.

Lemma listing_last (fs : list Forward) (c : codepoint) (init : pystr) :
  forallb well_formed fs = true ->
  join [10%N] (map forward_line fs) = init ++ [c] -> isspace c = false.
Proof.
  induction fs as [|f fs' _] using rev_ind.
  - cbn. intros _ H. now destruct init.
  - rewrite forallb_app, map_app. cbn [forallb map]. intros Hwf.
    apply andb_true_iff in Hwf as [_ Hf]. rewrite andb_true_r in Hf.
    unfold well_formed in Hf. apply andb_true_iff in Hf as [_ Hr].
    destruct (word_last _ Hr) as (init0 & c0 & Hrem & Hc0).
    destruct (join_ends [10%N] (map forward_line fs') (forward_line f))
      as (pre & ->).
    unfold forward_line. rewrite Hrem, !app_assoc. intros Heq.
    apply app_inj_tail in Heq as [_ <-]. exact Hc0.
Qed.

(** X11.  When [adb forward --list] prints, between any whitespace, lines
    of the form [<serial> tcp:<host_port> <remote>] whose serial and remote
    are non-empty and free of whitespace, the port lister returns the host
    ports of exactly those lines whose remote is a [tcp:] spec, in the
    order of the lines; a line that forwards the host port to any other
    remote, such as [localabstract:...], is left out. *)
Theorem list_occupied_adb_ports_of_listing
  (decimal : DecimalTable) (host : Host) (out err : bytes) (l r : pystr)
  (fs : list Forward) :
  host (CmdStr (lit "adb forward --list")) true = Exited out err 0 ->
  decode_utf8 out = Ok (l ++ join [10%N] (map forward_line fs) ++ r) ->
  forallb isspace l = true ->
  forallb isspace r = true ->
  forallb well_formed fs = true ->
  fst (list_occupied_adb_ports decimal host)
  = Ok (map fw_host_port (filter remote_is_tcp fs)).
Proof.
  intros Hrun Hdec Hl Hr Hwf.
  rewrite list_occupied_adb_ports_eq, Hrun. cbn [Z.eqb fst].
  unfold parse_forward_list. rewrite Hdec.
  rewrite (strip_exact l _ r Hl Hr
             (fun c rest => listing_head fs c rest Hwf)
             (fun c init => listing_last fs c init Hwf)).
  destruct fs as [|f fs]; [reflexivity|].
  rewrite split_join.
  - exact (forward_lines_loop decimal (f :: fs) [] Hwf).
  - discriminate.
  - rewrite Forall_map. rewrite forallb_forall in Hwf.
    apply Forall_forall. intros g Hg.
    exact (forward_line_no_newline g (Hwf g Hg)).
Qed.

Lemma list_occupied_adb_ports_of_listing_witness :
  fst (list_occupied_adb_ports arabic_indic
         (fun _ _ => Exited mixed_out [] 0))
  = Ok [5037%Z].
Proof.
  exact (list_occupied_adb_ports_of_listing arabic_indic
           (fun _ _ => Exited mixed_out [] 0) mixed_out [] [] [10%N]
           [mkForward (lit "emulator-5554") 5037 (lit "tcp:5555");
            mkForward (lit "emulator-5554") 6100 (lit "localabstract:scrcpy")]
           eq_refl eq_refl eq_refl eq_refl eq_refl).
Defined.

Lemma trimmed_ends (s : pystr) :
  trimmed s = true ->
  (forall c rest, s = c :: rest -> isspace c = false)
  /\ (forall c init, s = init ++ [c] -> isspace c = false).
Proof.
  unfold trimmed, plain. destruct s as [|d s']; intros H.
  - split; [discriminate|]. intros c init Heq. now destruct init.
  - apply andb_true_iff in H as [Hd Hl]. apply negb_true_iff in Hd.
    apply negb_true_iff in Hl. split.
    + intros c rest [= <- _]. exact Hd.
    + intros c init Heq. rewrite Heq, last_last in Hl. exact Hl.
Qed.

Lemma word_trimmed (s : pystr) : word s = true -> trimmed s = true.
Proof.
  unfold word, trimmed. intros H. apply andb_true_iff in H as [Hne Hall].
  destruct s as [|c s']; [reflexivity|].
  rewrite forallb_forall in Hall. apply andb_true_iff. split.
  - apply Hall. now left.
  - apply Hall. destruct (exists_last (l := c :: s')) as (init & d & Heq);
      [discriminate|].
    rewrite Heq, last_last. apply in_or_app. right. now left.
Qed.

(** X3.  [int] reads back what ['%d'] prints, for every integer, for
    every decimal-digit table and with any whitespace that [int] accepts
    around the digits (that of [isspace] without U+001C..U+001F): the
    port number that [tcp_forward] formats is the one the port lister
    parses. *)
Theorem int_reads_back_fmt_d
  (decimal : DecimalTable) (n : Z) (l r : pystr) :
  forallb int_isspace l = true ->
  forallb int_isspace r = true ->
  int decimal (l ++ fmt_d n ++ r) = Ok n.
Proof.
  intros Hl Hr.
  destruct (spaces_buffer l Hl) as [_ Hl2].
  destruct (spaces_buffer r Hr) as [_ Hr2].
  apply (int_fmt_d_buffer decimal _ (map squash l) (map squash r) n).
  - exact (fmt_d_buffer decimal n l r Hl Hr).
  - exact Hl2.
  - exact Hr2.
Qed.

Lemma int_reads_back_fmt_d_witness :
  int arabic_indic ([32%N; 160%N] ++ fmt_d (-5037) ++ [13%N; 10%N])
  = Ok (-5037)%Z.
Proof.
  apply (int_reads_back_fmt_d arabic_indic (-5037) [32%N; 160%N]
           [13%N; 10%N]);
    reflexivity.
Defined.

(** X4.  [split] and [join] undo each other: joining the segments of any
    text with the separator gives the text back, a split never returns
    the empty list, and splitting a joined list gives the list back when
    no element holds the first character of the separator. *)
Theorem split_join_round_trip :
  (forall sep s : pystr, sep <> [] -> join sep (split sep s) = s)
  /\ (forall sep s : pystr, split sep s <> [])
  /\ (forall (a : codepoint) (sep' : pystr) (parts : list pystr),
        parts <> [] ->
        Forall (fun q => forallb (fun c => negb (N.eqb a c)) q = true) parts ->
        split (a :: sep') (join (a :: sep') parts) = parts).
Proof.
  split; [|split].
  - intros sep s Hsep. exact (join_split sep s Hsep).
  - intros sep s. apply split_from_nonempty.
  - intros a sep' parts Hne Hall. exact (split_join a sep' parts Hne Hall).
Qed.

(** ** More on [getprop], [tcp_forward] and the dispatch *)

Lemma dispatch_result (host : Host) (name : pystr) (args : Payload)
  (self : AdbProxy) :
  result_of (__getattr__ host name args self)
  = match host (fst (op_command (serial self) (OpCall name args)))
            (snd (op_command (serial self) (OpCall name args))) with
    | Exited out err ret =>
        if Z.eqb ret 0 then Ok out
        else Raise (ExAdbError
                      (mkAdbError
                         (fst (op_command (serial self) (OpCall name args)))
                         out err ret))
    | SpawnFailed e => Raise (popen_exn e)
    end.
Proof.
  rewrite adb_call_eq. cbv zeta. rewrite exec_cmd_eq.
  destruct (host _ _) as [out err ret|pe]; reflexivity.
Qed.

Lemma getprop_result (host : Host) (prop_name : pystr) (self : AdbProxy) :
  result_of (getprop host prop_name self)
  = match host (CmdStr (lit "adb " ++ shell_target (serial self)
                        ++ lit "shell" ++ lit " " ++ lit "getprop "
                        ++ prop_name)) true with
    | Exited out err ret =>
        if Z.eqb ret 0
        then match decode_utf8 out with
             | Ok text => Ok (strip text)
             | Raise e => Raise e
             end
        else Raise (ExAdbError
                      (mkAdbError
                         (CmdStr (lit "adb " ++ shell_target (serial self)
                                  ++ lit "shell" ++ lit " " ++ lit "getprop "
                                  ++ prop_name)) out err ret))
    | SpawnFailed e => Raise (popen_exn e)
    end.
Proof.
  rewrite getprop_eq. cbv zeta. cbn [result_of fst].
  change (fst (fst (__getattr__ host (lit "shell")
                      (PStr (lit "getprop " ++ prop_name)) self)))
    with (result_of (__getattr__ host (lit "shell")
                       (PStr (lit "getprop " ++ prop_name)) self)).
  rewrite dispatch_result.
  replace (op_command (serial self)
             (OpCall (lit "shell") (PStr (lit "getprop " ++ prop_name))))
    with (shell_command (serial self) (lit "shell")
            (lit "getprop " ++ prop_name)) by reflexivity.
  unfold shell_command. cbn [fst snd].
  destruct (host _ true) as [out err ret|]; [|reflexivity].
  destruct (Z.eqb ret 0); reflexivity.
Qed.

(** X5.  When the process exits with 0 and its stdout decodes to a value
    with whitespace before and after it, [getprop] returns exactly that
    value; for an output of whitespace only, which is what the device
    prints for a property that does not exist, it returns the empty
    string. *)
Theorem getprop_value_between_whitespace
  (host : Host) (prop_name : pystr) (self : AdbProxy)
  (out err : bytes) (l value r : pystr) :
  host (CmdStr (lit "adb " ++ shell_target (serial self) ++ lit "shell"
                ++ lit " " ++ lit "getprop " ++ prop_name)) true
  = Exited out err 0 ->
  decode_utf8 out = Ok (l ++ value ++ r) ->
  forallb isspace l = true ->
  forallb isspace r = true ->
  trimmed value = true ->
  result_of (getprop host prop_name self) = Ok value.
Proof.
  intros Hrun Hdec Hl Hr Hval.
  rewrite getprop_result, Hrun, Hdec. cbn [Z.eqb].
  destruct (trimmed_ends value Hval) as [Hhd Hlast].
  now rewrite (strip_exact l value r Hl Hr Hhd Hlast).
Qed.

Lemma getprop_value_between_whitespace_witness :
  result_of (getprop (fun _ _ => Exited [x0d; x0a] [] 0)
               (lit "ro.no.such.property") (AdbProxy_init None))
  = Ok [].
Proof.
  exact (getprop_value_between_whitespace
           (fun _ _ => Exited [x0d; x0a] [] 0) (lit "ro.no.such.property")
           (AdbProxy_init None) [x0d; x0a] [] [13%N; 10%N] [] []
           eq_refl eq_refl eq_refl eq_refl eq_refl).
Defined.

(** X6.  [getprop] raises exactly in these cases: [subprocess] raised
    instead of yielding an exit code, and that exception comes out
    unchanged; the process exited with a non-zero code, which gives the
    [AdbError] with the command line, both streams and the code; the
    process exited with 0 and its stdout is not UTF-8, which gives
    [UnicodeDecodeError]. *)
Theorem getprop_failures
  (host : Host) (prop_name : pystr) (self : AdbProxy) (e : Exn) :
  result_of (getprop host prop_name self) = Raise e
  <-> ((exists pe,
          host (CmdStr (lit "adb " ++ shell_target (serial self)
                        ++ lit "shell" ++ lit " " ++ lit "getprop "
                        ++ prop_name)) true = SpawnFailed pe
          /\ e = popen_exn pe)
       \/ (exists out err ret,
             host (CmdStr (lit "adb " ++ shell_target (serial self)
                           ++ lit "shell" ++ lit " " ++ lit "getprop "
                           ++ prop_name)) true = Exited out err ret
             /\ ret <> 0%Z
             /\ e = ExAdbError
                      (mkAdbError
                         (CmdStr (lit "adb " ++ shell_target (serial self)
                                  ++ lit "shell" ++ lit " " ++ lit "getprop "
                                  ++ prop_name)) out err ret))
       \/ (exists out err,
             host (CmdStr (lit "adb " ++ shell_target (serial self)
                           ++ lit "shell" ++ lit " " ++ lit "getprop "
                           ++ prop_name)) true = Exited out err 0
             /\ utf8_points (map Byte.to_N out) = None
             /\ e = ExUnicodeDecodeError)).
Proof.
  rewrite getprop_result.
  destruct (host _ true) as [out err ret|pe] eqn:Hrun.
  - destruct (Z.eqb_spec ret 0) as [->|Hnz].
    + unfold decode_utf8.
      destruct (utf8_points (map Byte.to_N out)) as [text|] eqn:Hdec.
      * split; [discriminate|].
        intros [(pe & Hpe & _)|[(o & e0 & r & Heq & Hr & _)
                               |(o & e0 & Heq & Hbad & _)]].
        -- discriminate Hpe.
        -- injection Heq as _ _ <-. contradiction.
        -- injection Heq as <- _. congruence.
      * split.
        -- intros [= <-]. right. right. exists out, err.
           split; [reflexivity|]. split; [exact Hdec|reflexivity].
        -- intros [(pe & Hpe & _)|[(o & e0 & r & Heq & Hr & _)
                                  |(o & e0 & _ & _ & ->)]].
           ++ discriminate Hpe.
           ++ injection Heq as _ _ <-. contradiction.
           ++ reflexivity.
    + split.
      * intros [= <-]. right. left. exists out, err, ret.
        split; [reflexivity|]. split; [exact Hnz|reflexivity].
      * intros [(pe & Hpe & _)|[(o & e0 & r & Heq & _ & ->)
                               |(o & e0 & Heq & _)]].
        -- discriminate Hpe.
        -- injection Heq as <- <- <-. reflexivity.
        -- injection Heq as _ _ ->. contradiction.
  - split.
    + intros [= <-]. left. exists pe. split; reflexivity.
    + intros [(pe' & Hpe & ->)|[(o & e0 & r & Heq & _)|(o & e0 & Heq & _)]].
      * injection Hpe as <-. reflexivity.
      * discriminate Heq.
      * discriminate Heq.
Qed.

Lemma getprop_failures_witness :
  result_of (getprop (fun _ _ => Exited [xff] [] 0) (lit "ro.serialno")
               (AdbProxy_init None))
  = Raise ExUnicodeDecodeError.
Proof.
  apply (proj2 (getprop_failures (fun _ _ => Exited [xff] [] 0)
                  (lit "ro.serialno") (AdbProxy_init None)
                  ExUnicodeDecodeError)).
  right. right. exists [xff], []. repeat split.
Defined.

Lemma perform_events (host : Host) (op : Op) (self : AdbProxy) :
  snd (perform host op self) = op_events host (serial self) op.
Proof.
  assert (Hcall : forall name args,
            events_of (__getattr__ host name args self)
            = op_events host (serial self) (OpCall name args)).
  { intros name args. rewrite adb_call_eq. cbv zeta. rewrite exec_cmd_eq.
    unfold op_events. destruct (host _ _) as [out err ret|]; reflexivity. }
  destruct op as [name args|hp dp|prop]; cbn [perform snd].
  - apply Hcall.
  - unfold tcp_forward. rewrite bind_events_ok by reflexivity.
    rewrite Hcall. reflexivity.
  - unfold getprop. rewrite bind_events_ok.
    + rewrite Hcall. reflexivity.
    + intros out s. apply bind_events_ok. reflexivity.
Qed.

(** X7.  The event log of any sequence of operations is, operation by
    operation, one spawned process followed by one debug line with the
    command, both captured streams and the exit code; the line is
    written whether the exit code is 0 or not, and it is missing only
    when [subprocess] raised instead of yielding an exit code, as when
    the process could not be started.  A failed operation changes
    nothing for the ones after it. *)
Theorem operations_event_log
  (host : Host) (ops : list Op) (self : AdbProxy) :
  snd (perform_all host ops self)
  = flat_map (op_events host (serial self)) ops.
Proof.
  induction ops as [|op ops IH]; [reflexivity|].
  cbn [perform_all flat_map].
  pose proof (perform_self host op self) as Hself.
  pose proof (perform_events host op self) as Hop.
  destruct (perform host op self) as [self1 evs1]. cbn in Hself, Hop.
  subst self1.
  destruct (perform_all host ops self) as [self2 evs2]. cbn in IH |- *.
  now rewrite Hop, IH.
Qed.

(** X8.  Whatever payload it is given, a dispatched call hands exactly one
    command to [Popen]: the [TypeError] that [_exec_adb_cmd] raises for
    [None] before anything is run cannot be reached through the
    dispatch.  The call raises exactly when [subprocess] raised, and then
    that exception comes out unchanged, or when the exit code is not 0,
    and then it is the [AdbError] whose command is the command as it was
    built, a string in shell mode and a list in vector mode. *)
Theorem dispatch_raises_popen_or_adb_error
  (host : Host) (name : pystr) (args : Payload) (self : AdbProxy) :
  spawned (events_of (__getattr__ host name args self))
  = [op_command (serial self) (OpCall name args)]
  /\ (forall e,
        result_of (__getattr__ host name args self) = Raise e
        <-> ((exists pe,
                host (fst (op_command (serial self) (OpCall name args)))
                     (snd (op_command (serial self) (OpCall name args)))
                = SpawnFailed pe
                /\ e = popen_exn pe)
             \/ (exists out err ret,
                   host (fst (op_command (serial self) (OpCall name args)))
                        (snd (op_command (serial self) (OpCall name args)))
                   = Exited out err ret
                   /\ ret <> 0%Z
                   /\ e = ExAdbError
                            (mkAdbError
                               (fst (op_command (serial self)
                                       (OpCall name args)))
                               out err ret)))).
Proof.
  split.
  - rewrite adb_call_eq. cbv zeta. rewrite exec_cmd_spawned.
    now destruct (op_command _ _).
  - intros e. rewrite dispatch_result.
    destruct (host _ _) as [out err ret|pe] eqn:Hrun.
    + destruct (Z.eqb_spec ret 0) as [->|Hnz].
      * split; [discriminate|].
        intros [(pe & Hpe & _)|(o & e0 & r & Heq & Hr & _)].
        -- discriminate Hpe.
        -- injection Heq as _ _ <-. contradiction.
      * split.
        -- intros [= <-]. right. exists out, err, ret.
           split; [reflexivity|]. split; [exact Hnz|reflexivity].
        -- intros [(pe & Hpe & _)|(o & e0 & r & Heq & _ & ->)].
           ++ discriminate Hpe.
           ++ injection Heq as <- <- <-. reflexivity.
    + split.
      * intros [= <-]. left. exists pe. split; reflexivity.
      * intros [(pe' & Hpe & ->)|(o & e0 & r & Heq & _)].
        -- injection Hpe as <-. reflexivity.
        -- discriminate Heq.
Qed.

Lemma dispatch_raises_popen_or_adb_error_witness :
  result_of
    (__getattr__ (fun _ _ => Exited [] (blit "Failure") 1) (lit "install")
       (PList [lit "-r"; lit "a.apk"]) (AdbProxy_init None))
  = Raise (ExAdbError
             (mkAdbError
                (CmdList [lit "adb"; lit "install"; lit "-r"; lit "a.apk"])
                [] (blit "Failure") 1)).
Proof.
  apply (proj2 (proj2 (dispatch_raises_popen_or_adb_error
                         (fun _ _ => Exited [] (blit "Failure") 1)
                         (lit "install") (PList [lit "-r"; lit "a.apk"])
                         (AdbProxy_init None)) _)).
  right. exists [], (blit "Failure"), 1%Z.
  split; [reflexivity|]. split; [discriminate|reflexivity].
Defined.

Lemma replace_idempotent (name : pystr) :
  replace underscore hyphen (replace underscore hyphen name)
  = replace underscore hyphen name.
Proof.
  unfold replace. rewrite map_map. apply map_ext. intros c.
  destruct (N.eqb c underscore) eqn:Hc; [reflexivity|]. now rewrite Hc.
Qed.

(** X9.  The dispatch does not tell an underscore from a hyphen: two
    requested names that agree once their underscores are replaced give
    the same call, so the hyphenated name of a subcommand works as well
    as the underscored one. *)
Theorem dispatch_hyphenated_name
  (host : Host) (name name' : pystr) (args : Payload) (self : AdbProxy) :
  replace underscore hyphen name = replace underscore hyphen name' ->
  __getattr__ host name args self = __getattr__ host name' args self.
Proof.
  intros Heq. unfold __getattr__, adb_call. now rewrite Heq.
Qed.

Lemma dispatch_hyphenated_name_witness :
  __getattr__ (fun _ _ => Exited [] [] 0) (lit "wait_for_device") PNone
    (AdbProxy_init None)
  = __getattr__ (fun _ _ => Exited [] [] 0) (lit "wait-for-device") PNone
      (AdbProxy_init None).
Proof.
  apply (dispatch_hyphenated_name (fun _ _ => Exited [] [] 0)
           (lit "wait_for_device") (lit "wait-for-device") PNone
           (AdbProxy_init None)).
  reflexivity.
Defined.

(** X10.  For all integers and every proxy, [tcp_forward] hands exactly
    one command to [Popen], the shell command line
    [adb [-s "<serial>"] forward tcp:<host_port> tcp:<device_port>] with
    the two numbers in decimal; it does not check the numbers and leaves
    the proxy as it was.  It returns [None] when the exit code is 0,
    dropping the stdout of the call, raises the [AdbError] of a non-zero
    exit code, and lets the exception through that [subprocess] raised.
    [int] reads both numbers back from their decimal form. *)
Theorem tcp_forward_command_and_result
  (decimal : DecimalTable) (host : Host) (host_port device_port : Z)
  (self : AdbProxy) :
  spawned (events_of (tcp_forward host host_port device_port self))
  = [(CmdStr (lit "adb " ++ shell_target (serial self) ++ lit "forward"
              ++ lit " " ++ lit "tcp:" ++ fmt_d host_port ++ lit " tcp:"
              ++ fmt_d device_port), true)]
  /\ self_of (tcp_forward host host_port device_port self) = self
  /\ result_of (tcp_forward host host_port device_port self)
     = match host (CmdStr (lit "adb " ++ shell_target (serial self)
                           ++ lit "forward" ++ lit " " ++ lit "tcp:"
                           ++ fmt_d host_port ++ lit " tcp:"
                           ++ fmt_d device_port)) true with
       | Exited out err ret =>
           if Z.eqb ret 0 then Ok tt
           else Raise (ExAdbError
                         (mkAdbError
                            (CmdStr (lit "adb " ++ shell_target (serial self)
                                     ++ lit "forward" ++ lit " " ++ lit "tcp:"
                                     ++ fmt_d host_port ++ lit " tcp:"
                                     ++ fmt_d device_port)) out err ret))
       | SpawnFailed e => Raise (popen_exn e)
       end
  /\ int decimal (fmt_d host_port) = Ok host_port
  /\ int decimal (fmt_d device_port) = Ok device_port.
Proof.
  rewrite tcp_forward_eq. cbv zeta. cbn [events_of self_of result_of fst snd].
  split; [|split; [|split; [|split]]].
  - rewrite dispatch_string_uses_shell. reflexivity.
  - rewrite adb_call_eq. apply exec_cmd_self.
  - change (fst (fst (__getattr__ host (lit "forward")
                        (PStr (lit "tcp:" ++ fmt_d host_port ++ lit " tcp:"
                               ++ fmt_d device_port)) self)))
      with (result_of (__getattr__ host (lit "forward")
                         (PStr (lit "tcp:" ++ fmt_d host_port ++ lit " tcp:"
                                ++ fmt_d device_port)) self)).
    rewrite dispatch_result.
    replace (op_command (serial self)
               (OpCall (lit "forward")
                  (PStr (lit "tcp:" ++ fmt_d host_port ++ lit " tcp:"
                         ++ fmt_d device_port))))
      with (shell_command (serial self) (lit "forward")
              (lit "tcp:" ++ fmt_d host_port ++ lit " tcp:"
               ++ fmt_d device_port)) by reflexivity.
    unfold shell_command. cbn [fst snd].
    destruct (host _ true) as [out err ret|]; [|reflexivity].
    destruct (Z.eqb ret 0); reflexivity.
  - apply int_fmt_d.
  - apply int_fmt_d.
Qed.
